(** * liblight/lights.c: the tuna lights HAL

    A shallow embedding of [src/liblight/lights.c]: the three virtual LED
    states multiplexed onto the AN30259A LED, the slope encoding of a
    [light_state_t], the priority scan, the device write and the backlight
    path, followed by the properties the specification states about them.

    C integers are [Z].  The process-wide state ([g_led_states], the static
    [already_warned]) and the system calls the code issues are threaded
    through a [world]; what the kernel answers to those calls is an input
    ([syscalls]).  [pthread_mutex_lock]/[unlock] appear as events of the
    trace; threads are not modelled.  [ALOGV] lines are left out, [ALOGE]
    lines are events. *)

From stdpp Require Import prelude strings pretty.
From Stdlib Require Import ZArith Lia.

Local Open Scope Z_scope.

(** ** What the missing headers declare *)

(** [<hardware/lights.h>] and [<linux/leds-an30259a.h>] are included by
    lights.c and are not part of the repository's sources.  What lights.c
    uses of them is taken as a parameter: the flash-mode and LED-state
    constants, and the integer types of the durations.

    - [ms_arith v] is the value the machine computes for an arithmetic
      result [v] in the type of [flashOnMS];
    - [ms_field v] is the value a duration field of
      [struct an30259a_pr_control] holds after [v] is assigned to it.

    The [case] labels of a C [switch] are pairwise distinct, and the scan
    of [write_leds_priority] tells a lit LED from [LED_LIGHT_OFF]; both
    facts are part of the interface.  The LED-state constants, the masked
    24-bit colour and [MID_BRIGHTNESS] are taken to fit the fields they are
    assigned to. *)
Class Headers := {
  LIGHT_FLASH_NONE : Z;
  LIGHT_FLASH_TIMED : Z;
  LIGHT_FLASH_HARDWARE : Z;
  LED_LIGHT_OFF : Z;
  LED_LIGHT_ON : Z;
  LED_LIGHT_SLOPE : Z;
  ms_arith : Z -> Z;
  ms_field : Z -> Z;
  flash_labels_distinct :
    LIGHT_FLASH_NONE <> LIGHT_FLASH_TIMED /\
    LIGHT_FLASH_NONE <> LIGHT_FLASH_HARDWARE;
  led_lit_not_off :
    LED_LIGHT_ON <> LED_LIGHT_OFF /\ LED_LIGHT_SLOPE <> LED_LIGHT_OFF
}.

(** [<errno.h>] of Linux. *)
Definition EINVAL : Z := 22.

(** ** Constants of lights.c *)

Definition LCD_FILE : string := "/sys/class/backlight/s6e8aa0/brightness".
Definition LED_FILE : string := "/dev/an30259a_leds".

Definition IMAX : Z := 0.

Definition SLOPE_UP_1 : Z := 450.
Definition SLOPE_UP_2 : Z := 500 - SLOPE_UP_1.
Definition SLOPE_DOWN_1 : Z := SLOPE_UP_2.
Definition SLOPE_DOWN_2 : Z := SLOPE_UP_1.
Definition MID_BRIGHTNESS : Z := 31.

(** [enum LED_Type] *)
Definition LED_TYPE_ATTENTION : Z := 0.
Definition LED_TYPE_NOTIFICATION : Z := 1.
Definition LED_TYPE_CHARGING : Z := 2.
Definition LED_TYPE_LAST : Z := 3.

(** ** Data *)

(** The fields of [struct light_state_t] that lights.c reads. *)
Record light_state_t := {
  color : Z;
  flashMode : Z;
  flashOnMS : Z;
  flashOffMS : Z
}.

(** The fields of [struct an30259a_pr_control] that lights.c writes.  The
    C fields [color] and [state] are [led_color] and [led_state] here (a
    projection name is global in Rocq). *)
Record an30259a_pr_control := {
  led_color : Z;
  led_state : Z;
  time_slope_up_1 : Z;
  time_slope_up_2 : Z;
  time_slope_down_1 : Z;
  time_slope_down_2 : Z;
  time_off : Z;
  mid_brightness : Z
}.

(** [memset(led_state, 0, sizeof( *led_state))] *)
Definition led_zero : an30259a_pr_control :=
  {| led_color := 0; led_state := 0;
     time_slope_up_1 := 0; time_slope_up_2 := 0;
     time_slope_down_1 := 0; time_slope_down_2 := 0;
     time_off := 0; mid_brightness := 0 |}.

#[global] Instance an30259a_pr_control_inhabited : Inhabited an30259a_pr_control :=
  populate led_zero.

(** One assignment [led_state->field = v] each. *)
Definition set_led_color (v : Z) (d : an30259a_pr_control) :=
  {| led_color := v; led_state := led_state d;
     time_slope_up_1 := time_slope_up_1 d; time_slope_up_2 := time_slope_up_2 d;
     time_slope_down_1 := time_slope_down_1 d;
     time_slope_down_2 := time_slope_down_2 d;
     time_off := time_off d; mid_brightness := mid_brightness d |}.

Definition set_led_state (v : Z) (d : an30259a_pr_control) :=
  {| led_color := led_color d; led_state := v;
     time_slope_up_1 := time_slope_up_1 d; time_slope_up_2 := time_slope_up_2 d;
     time_slope_down_1 := time_slope_down_1 d;
     time_slope_down_2 := time_slope_down_2 d;
     time_off := time_off d; mid_brightness := mid_brightness d |}.

Definition set_time_slope_up_1 (v : Z) (d : an30259a_pr_control) :=
  {| led_color := led_color d; led_state := led_state d;
     time_slope_up_1 := v; time_slope_up_2 := time_slope_up_2 d;
     time_slope_down_1 := time_slope_down_1 d;
     time_slope_down_2 := time_slope_down_2 d;
     time_off := time_off d; mid_brightness := mid_brightness d |}.

Definition set_time_slope_up_2 (v : Z) (d : an30259a_pr_control) :=
  {| led_color := led_color d; led_state := led_state d;
     time_slope_up_1 := time_slope_up_1 d; time_slope_up_2 := v;
     time_slope_down_1 := time_slope_down_1 d;
     time_slope_down_2 := time_slope_down_2 d;
     time_off := time_off d; mid_brightness := mid_brightness d |}.

Definition set_time_slope_down_1 (v : Z) (d : an30259a_pr_control) :=
  {| led_color := led_color d; led_state := led_state d;
     time_slope_up_1 := time_slope_up_1 d; time_slope_up_2 := time_slope_up_2 d;
     time_slope_down_1 := v;
     time_slope_down_2 := time_slope_down_2 d;
     time_off := time_off d; mid_brightness := mid_brightness d |}.

Definition set_time_slope_down_2 (v : Z) (d : an30259a_pr_control) :=
  {| led_color := led_color d; led_state := led_state d;
     time_slope_up_1 := time_slope_up_1 d; time_slope_up_2 := time_slope_up_2 d;
     time_slope_down_1 := time_slope_down_1 d;
     time_slope_down_2 := v;
     time_off := time_off d; mid_brightness := mid_brightness d |}.

Definition set_time_off (v : Z) (d : an30259a_pr_control) :=
  {| led_color := led_color d; led_state := led_state d;
     time_slope_up_1 := time_slope_up_1 d; time_slope_up_2 := time_slope_up_2 d;
     time_slope_down_1 := time_slope_down_1 d;
     time_slope_down_2 := time_slope_down_2 d;
     time_off := v; mid_brightness := mid_brightness d |}.

Definition set_mid_brightness (v : Z) (d : an30259a_pr_control) :=
  {| led_color := led_color d; led_state := led_state d;
     time_slope_up_1 := time_slope_up_1 d; time_slope_up_2 := time_slope_up_2 d;
     time_slope_down_1 := time_slope_down_1 d;
     time_slope_down_2 := time_slope_down_2 d;
     time_off := time_off d; mid_brightness := v |}.

(** ** The world *)

(** What the process does to the outside, in order. *)
Inductive event :=
  | MutexLock
  | MutexUnlock
  | SysOpen (path : string)
  | SysWrite (fd : Z) (buffer : string)
  | SysIoctlSetImax (fd : Z) (imax : Z)
  | SysIoctlSetLed (fd : Z) (led : an30259a_pr_control)
  | SysClose (fd : Z)
  | LogE (msg : string).

(** What the kernel answers during one call of an entry point (each entry
    point opens one file, once): the value of [open], [errno] after a
    failed [open], the values of the two [ioctl]s, the value of [write] and
    [errno] after a failed [write]. *)
Record syscalls := {
  open_fd : Z;
  open_errno : Z;
  imax_ret : Z;
  led_ret : Z;
  write_ret : Z;
  write_errno : Z
}.

(** The process-wide state: the "stack" of virtual LED states (a C array
    of [LED_TYPE_LAST] elements, here a list), the static [already_warned]
    of [write_int], and the trace of events so far. *)
Record world := {
  g_led_states : list an30259a_pr_control;
  already_warned : Z;
  trace : list event
}.

Definition emit (e : event) (w : world) : world :=
  {| g_led_states := g_led_states w;
     already_warned := already_warned w;
     trace := trace w ++ [e] |}.

Definition set_already_warned (v : Z) (w : world) : world :=
  {| g_led_states := g_led_states w;
     already_warned := v;
     trace := trace w |}.

(** [g_led_states[i]] *)
Definition led_at (i : Z) (w : world) : an30259a_pr_control :=
  g_led_states w !!! Z.to_nat i.

(** An assignment through [led_state = &g_led_states[type]]. *)
Definition led_assign (type : Z)
    (f : an30259a_pr_control -> an30259a_pr_control) (w : world) : world :=
  {| g_led_states := alter f (Z.to_nat type) (g_led_states w);
     already_warned := already_warned w;
     trace := trace w |}.

(** [memset(&g_led_states[type], 0, sizeof(g_led_states[type]))] *)
Definition led_memset (type : Z) (w : world) : world :=
  {| g_led_states := <[Z.to_nat type := led_zero]> (g_led_states w);
     already_warned := already_warned w;
     trace := trace w |}.

(** [init_g_lock]: the whole array is zeroed. *)
Definition init_g_lock (w : world) : world :=
  {| g_led_states := replicate (Z.to_nat LED_TYPE_LAST) led_zero;
     already_warned := already_warned w;
     trace := trace w |}.

(** ** The backlight *)

(** [sprintf(buffer, "%d\n", value)] *)
Definition newline : string := String (Ascii.ascii_of_nat 10) EmptyString.
Definition sprintf_d_nl (value : Z) : string := pretty value +:+ newline.

Definition write_int (k : syscalls) (path : string) (value : Z) (w : world)
    : Z * world :=
  let w := set_already_warned 0 w in
  let fd := open_fd k in
  let w := emit (SysOpen path) w in
  if 0 <=? fd then
    let amt := write_ret k in
    let w := emit (SysWrite fd (sprintf_d_nl value)) w in
    let w := emit (SysClose fd) w in
    (if amt =? -1 then - write_errno k else 0, w)
  else
    let w :=
      if already_warned w =? 0 then
        set_already_warned 1 (emit (LogE ("write_int failed to open " +:+ path)) w)
      else w in
    (- open_errno k, w).

Definition rgb_to_brightness (state : light_state_t) : Z :=
  let color := Z.land (color state) 0x00ffffff in
  Z.shiftr (77 * Z.land (Z.shiftr color 16) 0x00ff
            + 150 * Z.land (Z.shiftr color 8) 0x00ff
            + 29 * Z.land color 0x00ff) 8.

Definition set_light_backlight (k : syscalls) (state : light_state_t) (w : world)
    : Z * world :=
  let brightness := rgb_to_brightness state in
  let w := emit MutexLock w in
  let '(err, w) := write_int k LCD_FILE brightness w in
  let w := emit MutexUnlock w in
  (err, w).

(** ** The LED *)

Definition write_leds (k : syscalls) (led : an30259a_pr_control) (w : world)
    : Z * world :=
  let imax := IMAX in
  let w := emit MutexLock w in
  let fd := open_fd k in
  let w := emit (SysOpen LED_FILE) w in
  let '(err, w) :=
    if 0 <=? fd then
      let err := imax_ret k in
      let w := emit (SysIoctlSetImax fd imax) w in
      let w := if err =? 0 then w else emit (LogE "failed to set imax") w in
      let err := led_ret k in
      let w := emit (SysIoctlSetLed fd led) w in
      let w := if err <? 0 then emit (LogE "failed to set leds!") w else w in
      let w := emit (SysClose fd) w in
      (err, w)
    else
      let w := emit (LogE ("failed to open " +:+ LED_FILE +:+ "!")) w in
      (- open_errno k, w) in
  let w := emit MutexUnlock w in
  (err, w).

Section Leds.
Context `{Headers}.

(** The loop of [write_leds_priority], entered with [i] and [n] rounds
    left before [i] reaches [LED_TYPE_LAST]; after the last round the
    statement that follows the loop runs. *)
Fixpoint write_leds_priority_loop (n : nat) (i : Z) (k : syscalls) (w : world)
    : Z * world :=
  match n with
  | O => write_leds k (led_at (LED_TYPE_LAST - 1) w) w
  | S n' =>
      if negb (led_state (led_at i w) =? LED_LIGHT_OFF) then
        write_leds k (led_at i w) w
      else
        write_leds_priority_loop n' (i + 1) k w
  end.

Definition write_leds_priority (k : syscalls) (w : world) : Z * world :=
  write_leds_priority_loop (Z.to_nat LED_TYPE_LAST) 0 k w.

Definition set_light_leds (k : syscalls) (state : light_state_t) (type : Z)
    (w : world) : Z * world :=
  if (type <? 0) || (type >=? LED_TYPE_LAST) then (- EINVAL, w)
  else
    let w := led_memset type w in
    if negb (Z.land (color state) 0xffffff =? 0) then
      let w := led_assign type (set_led_color (Z.land (color state) 0x00ffffff)) w in
      let w :=
        if led_color (led_at type w) =? 0x00ffffff then
          led_assign type (set_led_color 0x80ff80) w
        else w in
      if flashMode state =? LIGHT_FLASH_NONE then
        let w := led_assign type (set_led_state LED_LIGHT_ON) w in
        write_leds_priority k w
      else if (flashMode state =? LIGHT_FLASH_TIMED)
              || (flashMode state =? LIGHT_FLASH_HARDWARE) then
        let w := led_assign type (set_led_state LED_LIGHT_SLOPE) w in
        let w := led_assign type (set_time_slope_up_1
                   (ms_field (ms_arith (SLOPE_UP_1 * flashOnMS state) ÷ 1000))) w in
        let w := led_assign type (set_time_slope_up_2
                   (ms_field (ms_arith (SLOPE_UP_2 * flashOnMS state) ÷ 1000))) w in
        let w := led_assign type (set_time_slope_down_1
                   (ms_field (ms_arith (SLOPE_DOWN_1 * flashOnMS state) ÷ 1000))) w in
        let w := led_assign type (set_time_slope_down_2
                   (ms_field (ms_arith (SLOPE_DOWN_2 * flashOnMS state) ÷ 1000))) w in
        let w := led_assign type (set_mid_brightness MID_BRIGHTNESS) w in
        let w := led_assign type (set_time_off (ms_field (flashOffMS state))) w in
        write_leds_priority k w
      else (- EINVAL, w)
    else
      let w := led_assign type (set_led_state LED_LIGHT_OFF) w in
      write_leds_priority k w.

Definition set_light_leds_notifications (k : syscalls) (state : light_state_t)
    (w : world) : Z * world :=
  set_light_leds k state LED_TYPE_NOTIFICATION w.

Definition set_light_leds_attention (k : syscalls) (state : light_state_t)
    (w : world) : Z * world :=
  let attention_state := state in
  let attention_state :=
    if flashMode attention_state =? LIGHT_FLASH_NONE then
      {| color := 0;
         flashMode := flashMode attention_state;
         flashOnMS := flashOnMS attention_state;
         flashOffMS := flashOffMS attention_state |}
    else attention_state in
  set_light_leds k attention_state LED_TYPE_ATTENTION w.

Definition set_light_leds_battery (k : syscalls) (state : light_state_t)
    (w : world) : Z * world :=
  set_light_leds k state LED_TYPE_CHARGING w.

(** A zeroed descriptor with [state = LED_LIGHT_OFF]. *)
Definition led_off : an30259a_pr_control :=
  set_led_state LED_LIGHT_OFF led_zero.

(** *** What the encoding leaves in the slot *)

(** The descriptor that lines 175-205 of lights.c leave in
    [g_led_states[type]], as a function of the request alone.  The last
    case is the [default:] label: the function returns [-EINVAL] there
    with the slot zeroed and the colour assigned. *)
Definition white_tweak (c : Z) : Z :=
  if c =? 0x00ffffff then 0x80ff80 else c.

Definition led_state_after (state : light_state_t) : an30259a_pr_control :=
  if Z.land (color state) 0xffffff =? 0 then led_off
  else
    let c := white_tweak (Z.land (color state) 0x00ffffff) in
    if flashMode state =? LIGHT_FLASH_NONE then
      {| led_color := c; led_state := LED_LIGHT_ON;
         time_slope_up_1 := 0; time_slope_up_2 := 0;
         time_slope_down_1 := 0; time_slope_down_2 := 0;
         time_off := 0; mid_brightness := 0 |}
    else if (flashMode state =? LIGHT_FLASH_TIMED)
            || (flashMode state =? LIGHT_FLASH_HARDWARE) then
      {| led_color := c; led_state := LED_LIGHT_SLOPE;
         time_slope_up_1 := ms_field (ms_arith (SLOPE_UP_1 * flashOnMS state) ÷ 1000);
         time_slope_up_2 := ms_field (ms_arith (SLOPE_UP_2 * flashOnMS state) ÷ 1000);
         time_slope_down_1 := ms_field (ms_arith (SLOPE_DOWN_1 * flashOnMS state) ÷ 1000);
         time_slope_down_2 := ms_field (ms_arith (SLOPE_DOWN_2 * flashOnMS state) ÷ 1000);
         time_off := ms_field (flashOffMS state);
         mid_brightness := MID_BRIGHTNESS |}
    else set_led_color c led_zero.

(** The value [write_leds] returns, which the kernel's answers decide. *)
Definition write_leds_result (k : syscalls) : Z :=
  if 0 <=? open_fd k then led_ret k else - open_errno k.

(** A request whose [flashMode] is one of the three [case] labels. *)
Definition flash_mode_known (state : light_state_t) : Prop :=
  flashMode state = LIGHT_FLASH_NONE \/
  flashMode state = LIGHT_FLASH_TIMED \/
  flashMode state = LIGHT_FLASH_HARDWARE.

(** The machine types lose nothing of the request's durations: the two
    products are computed exactly and the five values assigned to the
    duration fields are stored as they are. *)
Definition durations_exact (state : light_state_t) : Prop :=
  ms_arith (SLOPE_UP_1 * flashOnMS state) = SLOPE_UP_1 * flashOnMS state /\
  ms_arith (SLOPE_UP_2 * flashOnMS state) = SLOPE_UP_2 * flashOnMS state /\
  ms_field (SLOPE_UP_1 * flashOnMS state ÷ 1000) = SLOPE_UP_1 * flashOnMS state ÷ 1000 /\
  ms_field (SLOPE_UP_2 * flashOnMS state ÷ 1000) = SLOPE_UP_2 * flashOnMS state ÷ 1000 /\
  ms_field (flashOffMS state) = flashOffMS state.

(** The invariant the data model states for a stored descriptor. *)
Definition off_is_zeroed (d : an30259a_pr_control) : Prop :=
  led_state d = LED_LIGHT_OFF ->
  led_color d = 0 /\
  time_slope_up_1 d = 0 /\ time_slope_up_2 d = 0 /\
  time_slope_down_1 d = 0 /\ time_slope_down_2 d = 0 /\
  mid_brightness d = 0.

End Leds.

(** ** The headers of the tuna build *)

(** Two's-complement [int] and an unsigned 16-bit field. *)
Definition wrap_int32 (v : Z) : Z := (v + 2 ^ 31) mod 2 ^ 32 - 2 ^ 31.
Definition wrap_u16 (v : Z) : Z := v mod 2 ^ 16.

(** The headers the tuna HAL is built against.  [<hardware/lights.h>] of
    libhardware numbers [LIGHT_FLASH_NONE], [_TIMED], [_HARDWARE] 0, 1, 2
    and declares [flashOnMS] and [flashOffMS] as [int];
    [<linux/leds-an30259a.h>] of the tuna kernel numbers [LED_LIGHT_OFF],
    [_ON], [_SLOPE] 0, 1, 3 and declares the durations of
    [struct an30259a_pr_control] as [__u16].  With [LED_LIGHT_OFF = 0] the
    array zeroed by [init_g_lock] is all off, as the specification says of
    the initial store. *)
Definition tuna : Headers.
Proof.
  refine {| LIGHT_FLASH_NONE := 0; LIGHT_FLASH_TIMED := 1; LIGHT_FLASH_HARDWARE := 2;
            LED_LIGHT_OFF := 0; LED_LIGHT_ON := 1; LED_LIGHT_SLOPE := 3;
            ms_arith := wrap_int32; ms_field := wrap_u16 |}; split; discriminate.
Defined.

(** ** Observations and sample inputs *)

(** The descriptors handed to the LED driver, in order: the arguments of
    the [AN30259A_PR_SET_LED] calls of a trace. *)
Definition led_writes (t : list event) : list an30259a_pr_control :=
  omap (fun e => match e with SysIoctlSetLed _ led => Some led | _ => None end) t.

(** The process before any call: static storage is zeroed. *)
Definition world0 : world :=
  {| g_led_states := replicate (Z.to_nat LED_TYPE_LAST) led_zero;
     already_warned := 0;
     trace := [] |}.

(** A kernel that serves every call; one whose max-current [ioctl] fails
    while the descriptor [ioctl] succeeds; one that has no device node
    ([ENOENT]). *)
Definition kernel_ok : syscalls :=
  {| open_fd := 3; open_errno := 0; imax_ret := 0; led_ret := 0;
     write_ret := 4; write_errno := 0 |}.

Definition kernel_imax_fails : syscalls :=
  {| open_fd := 3; open_errno := 0; imax_ret := -1; led_ret := 0;
     write_ret := 4; write_errno := 0 |}.

Definition kernel_no_device : syscalls :=
  {| open_fd := -1; open_errno := 2; imax_ret := 0; led_ret := 0;
     write_ret := 0; write_errno := 0 |}.

(** Requests: steady red, blinking green (1 s on, 2 s off), two with a
    [flashMode] that is no [case] label, and a very slow blink. *)
Definition red_steady : light_state_t :=
  {| color := 0xffff0000; flashMode := 0; flashOnMS := 0; flashOffMS := 0 |}.

Definition green_blink : light_state_t :=
  {| color := 0xff00ff00; flashMode := 1; flashOnMS := 1000; flashOffMS := 2000 |}.

(** Alpha only: no bit in the low 24; a [flashMode] that is no label. *)
Definition black_odd_mode : light_state_t :=
  {| color := 0xff000000; flashMode := 7; flashOnMS := 0; flashOffMS := 0 |}.

Definition red_odd_mode : light_state_t :=
  {| color := 0xffff0000; flashMode := 7; flashOnMS := 0; flashOffMS := 0 |}.

(** On for 10000 s, off for 70 s. *)
Definition green_long_blink : light_state_t :=
  {| color := 0xff00ff00; flashMode := 1;
     flashOnMS := 10000000; flashOffMS := 70000 |}.

(** ** Opening a light *)

(** Modelled from the spec: [LIGHT_ID_BACKLIGHT] of [<hardware/lights.h>],
    a header that is not part of the sources; section 6 of the
    specification names the entry point [backlight]. *)
Definition LIGHT_ID_BACKLIGHT : string := "backlight".

(** Modelled from the spec: [LIGHT_ID_NOTIFICATIONS] of the same header;
    section 6 names the entry point [notifications]. *)
Definition LIGHT_ID_NOTIFICATIONS : string := "notifications".

(** Modelled from the spec: [LIGHT_ID_ATTENTION] of the same header;
    section 6 names the entry point [attention]. *)
Definition LIGHT_ID_ATTENTION : string := "attention".

(** Modelled from the spec: [LIGHT_ID_BATTERY] of the same header;
    section 6 names the entry point [battery]. *)
Definition LIGHT_ID_BATTERY : string := "battery".

(** The four functions [dev->set_light] can point at. *)
Inductive set_light_fn :=
  | fn_set_light_backlight
  | fn_set_light_leds_notifications
  | fn_set_light_leds_attention
  | fn_set_light_leds_battery.

(** The fields of [struct light_device_t] that [open_lights] fills from
    its own arguments and constants: [common.version], [common.module]
    (an address) and [set_light].  [common.tag] holds a constant of a
    header that is not in the sources and [common.close] always points at
    [close_lights]; [malloc] is taken to succeed. *)
Record light_device_t := {
  common_version : Z;
  common_module : Z;
  set_light : set_light_fn
}.

(** The process with its [pthread_once_t g_init]: [true] once
    [init_g_lock] has run. *)
Record process := {
  g_init : bool;
  proc : world
}.

(** [pthread_once(&g_init, init_g_lock)] *)
Definition pthread_once_init_g_lock (p : process) : process :=
  if g_init p then p
  else {| g_init := true; proc := init_g_lock (proc p) |}.

(** [0 == strcmp(a, b)] *)
Definition strcmp_is_0 (a b : string) : bool := String.eqb a b.

(** [open_lights]: the status, the device stored through [device] when
    there is one, and the process afterwards. *)
Definition open_lights (module : Z) (name : string) (p : process)
    : Z * option light_device_t * process :=
  let set_light :=
    if strcmp_is_0 LIGHT_ID_BACKLIGHT name then Some fn_set_light_backlight
    else if strcmp_is_0 LIGHT_ID_NOTIFICATIONS name then
      Some fn_set_light_leds_notifications
    else if strcmp_is_0 LIGHT_ID_ATTENTION name then
      Some fn_set_light_leds_attention
    else if strcmp_is_0 LIGHT_ID_BATTERY name then
      Some fn_set_light_leds_battery
    else None in
  match set_light with
  | None => (- EINVAL, None, p)
  | Some f =>
      let p := pthread_once_init_g_lock p in
      let dev := {| common_version := 0; common_module := module;
                    set_light := f |} in
      (0, Some dev, p)
  end.

Section Dispatch.
Context `{Headers}.

(** [dev->set_light(dev, state)] *)
Definition call_set_light (dev : light_device_t) (k : syscalls)
    (state : light_state_t) (w : world) : Z * world :=
  match set_light dev with
  | fn_set_light_backlight => set_light_backlight k state w
  | fn_set_light_leds_notifications => set_light_leds_notifications k state w
  | fn_set_light_leds_attention => set_light_leds_attention k state w
  | fn_set_light_leds_battery => set_light_leds_battery k state w
  end.

(** A request [set_light_leds] does not reject: a colour without a bit in
    its low 24, or a [flashMode] that is one of the [case] labels. *)
Definition accepted (state : light_state_t) : Prop :=
  Z.land (color state) 0xffffff = 0 \/ flash_mode_known state.

End Dispatch.

(** The process before [open_lights] was ever called. *)
Definition process0 : process := {| g_init := false; proc := world0 |}.

(** A kernel whose [write] fails with [EIO]. *)
Definition kernel_write_fails : syscalls :=
  {| open_fd := 3; open_errno := 0; imax_ret := 0; led_ret := 0;
     write_ret := -1; write_errno := 5 |}.

(** Requests: white that blinks, and the grey level 128 the framework
    sends for a backlight brightness of 128. *)
Definition white_blink : light_state_t :=
  {| color := 0xffffffff; flashMode := 2; flashOnMS := 300; flashOffMS := 700 |}.

Definition grey_128 : light_state_t :=
  {| color := 0xff808080; flashMode := 0; flashOnMS := 0; flashOffMS := 0 |}.

(** * Properties *)

(** ** The store under assignments *)

Lemma alter_insert_same {A} (f : A -> A) (i : nat) (x : A) (l : list A) :
  alter f i (<[i := x]> l) = <[i := f x]> l.
Proof.
  rewrite !list_insert_alter, list_alter_alter_eq.
  apply list_alter_ext; auto.
Qed.

(** ** The device write leaves the store alone *)

Lemma write_leds_states k led w :
  g_led_states (write_leds k led w).2 = g_led_states w.
Proof.
  unfold write_leds.
  destruct (0 <=? open_fd k), (imax_ret k =? 0), (led_ret k <? 0); reflexivity.
Qed.

Lemma write_leds_result_eq k led w :
  (write_leds k led w).1 = write_leds_result k.
Proof.
  unfold write_leds, write_leds_result.
  destruct (0 <=? open_fd k), (imax_ret k =? 0), (led_ret k <? 0); reflexivity.
Qed.

Section LedFacts.
Context `{Headers}.

Lemma write_leds_priority_loop_states n i k w :
  g_led_states (write_leds_priority_loop n i k w).2 = g_led_states w.
Proof.
  revert i. induction n as [|n IH]; intros i; simpl.
  - apply write_leds_states.
  - destruct (negb _); [apply write_leds_states | apply IH].
Qed.

Lemma write_leds_priority_states k w :
  g_led_states (write_leds_priority k w).2 = g_led_states w.
Proof. apply write_leds_priority_loop_states. Qed.

Lemma write_leds_priority_loop_result n i k w :
  (write_leds_priority_loop n i k w).1 = write_leds_result k.
Proof.
  revert i. induction n as [|n IH]; intros i; simpl.
  - apply write_leds_result_eq.
  - destruct (negb _); [apply write_leds_result_eq | apply IH].
Qed.

Lemma write_leds_priority_result k w :
  (write_leds_priority k w).1 = write_leds_result k.
Proof. apply write_leds_priority_loop_result. Qed.

End LedFacts.

Section Encoding.
Context `{Headers}.

(** ** The slot after [set_light_leds] *)

Lemma set_light_leds_states k state type w :
  0 <= type < LED_TYPE_LAST ->
  (Z.to_nat type < length (g_led_states w))%nat ->
  g_led_states (set_light_leds k state type w).2 =
    <[Z.to_nat type := led_state_after state]> (g_led_states w).
Proof.
  intros Hty Hlen. unfold set_light_leds, led_state_after.
  replace ((type <? 0) || (type >=? LED_TYPE_LAST)) with false by lia.
  destruct (Z.land (color state) 16777215 =? 0) eqn:Hc; cbn [negb].
  { rewrite write_leds_priority_states. cbn [g_led_states led_assign led_memset].
    by rewrite alter_insert_same. }
  set (c := Z.land (color state) 16777215).
  assert (Hat : led_color (led_at type
             (led_assign type (set_led_color c) (led_memset type w))) = c).
  { unfold led_at. cbn [g_led_states led_assign led_memset].
    rewrite alter_insert_same. by rewrite list_lookup_total_insert_eq. }
  rewrite Hat. unfold white_tweak.
  destruct (c =? 16777215) eqn:Hw;
    destruct (flashMode state =? LIGHT_FLASH_NONE);
    try destruct ((flashMode state =? LIGHT_FLASH_TIMED)
                  || (flashMode state =? LIGHT_FLASH_HARDWARE));
    rewrite ?write_leds_priority_states;
    cbn [g_led_states led_assign led_memset snd];
    rewrite !alter_insert_same; reflexivity.
Qed.
End Encoding.

(** ** The trace of a device write *)

Lemma write_leds_trace k led w :
  0 <= open_fd k ->
  trace (write_leds k led w).2 =
    trace w
    ++ [MutexLock; SysOpen LED_FILE; SysIoctlSetImax (open_fd k) IMAX]
    ++ (if imax_ret k =? 0 then [] else [LogE "failed to set imax"])
    ++ [SysIoctlSetLed (open_fd k) led]
    ++ (if led_ret k <? 0 then [LogE "failed to set leds!"] else [])
    ++ [SysClose (open_fd k); MutexUnlock].
Proof.
  intros Hfd. unfold write_leds.
  replace (0 <=? open_fd k) with true by lia.
  destruct (imax_ret k =? 0), (led_ret k <? 0); cbn [snd trace emit];
    rewrite <- ?app_assoc; reflexivity.
Qed.

Lemma write_leds_led_writes k led w :
  0 <= open_fd k ->
  led_writes (trace (write_leds k led w).2) = led_writes (trace w) ++ [led].
Proof.
  intros Hfd. rewrite write_leds_trace by done. unfold led_writes.
  rewrite omap_app. f_equal.
  destruct (imax_ret k =? 0), (led_ret k <? 0); reflexivity.
Qed.

Section Arbitration.
Context `{Headers}.

(** C1.  Whatever the store holds, [write_leds_priority] is one call of
    [write_leds]: on the Attention slot when that is not off, else on the
    Notification slot when that is not off, else on the Charging slot
    (lit or off).  When the device node opens, the driver is handed
    exactly one descriptor, the selected one. *)
Theorem write_leds_priority_first_lit k w :
  exists i,
    ((i = LED_TYPE_ATTENTION /\
      led_state (led_at LED_TYPE_ATTENTION w) <> LED_LIGHT_OFF) \/
     (i = LED_TYPE_NOTIFICATION /\
      led_state (led_at LED_TYPE_ATTENTION w) = LED_LIGHT_OFF /\
      led_state (led_at LED_TYPE_NOTIFICATION w) <> LED_LIGHT_OFF) \/
     (i = LED_TYPE_CHARGING /\
      led_state (led_at LED_TYPE_ATTENTION w) = LED_LIGHT_OFF /\
      led_state (led_at LED_TYPE_NOTIFICATION w) = LED_LIGHT_OFF)) /\
    write_leds_priority k w = write_leds k (led_at i w) w /\
    (0 <= open_fd k ->
     led_writes (trace (write_leds_priority k w).2) =
       led_writes (trace w) ++ [led_at i w]).
Proof.
  unfold write_leds_priority.
  change (Z.to_nat LED_TYPE_LAST) with 3%nat. cbn [write_leds_priority_loop].
  change (0 + 1) with 1. change (1 + 1) with 2.
  change (LED_TYPE_LAST - 1) with 2.
  destruct (led_state (led_at 0 w) =? LED_LIGHT_OFF) eqn:E0; cbn [negb].
  - destruct (led_state (led_at 1 w) =? LED_LIGHT_OFF) eqn:E1; cbn [negb].
    + exists LED_TYPE_CHARGING. split; [|split].
      * right; right. unfold LED_TYPE_ATTENTION, LED_TYPE_NOTIFICATION. lia.
      * destruct (led_state (led_at 2 w) =? LED_LIGHT_OFF); reflexivity.
      * intros Hfd.
        destruct (led_state (led_at 2 w) =? LED_LIGHT_OFF);
          by apply write_leds_led_writes.
    + exists LED_TYPE_NOTIFICATION. split; [|split].
      * right; left. unfold LED_TYPE_ATTENTION, LED_TYPE_NOTIFICATION. lia.
      * reflexivity.
      * intros Hfd. by apply write_leds_led_writes.
  - exists LED_TYPE_ATTENTION. split; [|split].
    + left. unfold LED_TYPE_ATTENTION. lia.
    + reflexivity.
    + intros Hfd. by apply write_leds_led_writes.
Qed.

End Arbitration.

(** ** The device write *)

(** C8, as amended.  When the device node opens, [write_leds] issues the
    max-current [ioctl] and then the descriptor [ioctl], whatever the
    first one answered, logs each failure, closes the node, and returns
    the answer of the descriptor [ioctl]: a failure of the descriptor step
    reaches the caller. *)
Theorem write_leds_returns_last_ioctl k led w :
  0 <= open_fd k ->
  trace (write_leds k led w).2 =
    trace w
    ++ [MutexLock; SysOpen LED_FILE; SysIoctlSetImax (open_fd k) IMAX]
    ++ (if imax_ret k =? 0 then [] else [LogE "failed to set imax"])
    ++ [SysIoctlSetLed (open_fd k) led]
    ++ (if led_ret k <? 0 then [LogE "failed to set leds!"] else [])
    ++ [SysClose (open_fd k); MutexUnlock] /\
  (write_leds k led w).1 = led_ret k /\
  (led_ret k < 0 -> (write_leds k led w).1 < 0).
Proof.
  intros Hfd. split; [by apply write_leds_trace|].
  rewrite write_leds_result_eq. unfold write_leds_result.
  replace (0 <=? open_fd k) with true by lia. done.
Qed.

Lemma write_leds_returns_last_ioctl_witness :
  0 <= open_fd kernel_imax_fails /\
  (write_leds kernel_imax_fails led_zero world0).1 = led_ret kernel_imax_fails.
Proof.
  split; [done|].
  apply (write_leds_returns_last_ioctl kernel_imax_fails led_zero world0). done.
Defined.

(** C8, as stated, fails: with a max-current [ioctl] that fails (-1) and a
    descriptor [ioctl] that succeeds, both are issued, the failure is
    logged, and [write_leds] returns 0. *)
Lemma write_leds_imax_failure_returns_zero :
  0 <= open_fd kernel_imax_fails /\
  imax_ret kernel_imax_fails <> 0 /\
  (write_leds kernel_imax_fails led_zero world0).1 = 0 /\
  trace (write_leds kernel_imax_fails led_zero world0).2 =
    [MutexLock; SysOpen LED_FILE; SysIoctlSetImax 3 IMAX;
     LogE "failed to set imax"; SysIoctlSetLed 3 led_zero;
     SysClose 3; MutexUnlock].
Proof. repeat split; done. Qed.

(** ** The backlight *)

Lemma land_low_bits x n : 0 <= n -> Z.land x (2 ^ n - 1) = x mod 2 ^ n.
Proof.
  intros Hn. replace (2 ^ n - 1) with (Z.ones n) by (rewrite Z.ones_equiv; lia).
  by apply Z.land_ones.
Qed.

Lemma rgb_to_brightness_arith state :
  rgb_to_brightness state =
    (77 * (color state mod 2 ^ 24 / 2 ^ 16 mod 256)
     + 150 * (color state mod 2 ^ 24 / 2 ^ 8 mod 256)
     + 29 * (color state mod 2 ^ 24 mod 256)) / 256.
Proof.
  unfold rgb_to_brightness.
  change 16777215 with (2 ^ 24 - 1). change 255 with (2 ^ 8 - 1).
  rewrite !land_low_bits by done.
  rewrite !Z.shiftr_div_pow2 by done. reflexivity.
Qed.

(** C9.  The brightness is the luma sum (77 r + 150 g + 29 b) >> 8 over
    the three bytes of the colour masked to 24 bits; it lies in 0..255
    for every colour, is 255 for white and 0 for black; and when the
    backlight node opens, [set_light_backlight] writes that one value (as
    decimal text and a newline) and nothing else. *)
Theorem set_light_backlight_brightness k state w :
  rgb_to_brightness state =
    (77 * (color state mod 2 ^ 24 / 2 ^ 16 mod 256)
     + 150 * (color state mod 2 ^ 24 / 2 ^ 8 mod 256)
     + 29 * (color state mod 2 ^ 24 mod 256)) / 256 /\
  0 <= rgb_to_brightness state <= 255 /\
  (Z.land (color state) 0xffffff = 0xffffff -> rgb_to_brightness state = 255) /\
  (Z.land (color state) 0xffffff = 0 -> rgb_to_brightness state = 0) /\
  (0 <= open_fd k ->
   trace (set_light_backlight k state w).2 =
     trace w ++ [MutexLock; SysOpen LCD_FILE;
                 SysWrite (open_fd k) (sprintf_d_nl (rgb_to_brightness state));
                 SysClose (open_fd k); MutexUnlock]).
Proof.
  split; [apply rgb_to_brightness_arith|].
  split; [|split; [|split]].
  - rewrite rgb_to_brightness_arith.
    pose proof (Z.mod_pos_bound (color state mod 2 ^ 24 / 2 ^ 16) 256).
    pose proof (Z.mod_pos_bound (color state mod 2 ^ 24 / 2 ^ 8) 256).
    pose proof (Z.mod_pos_bound (color state mod 2 ^ 24) 256).
    split; [apply Z.div_pos; lia|].
    apply Z.div_le_upper_bound; lia.
  - intros E. unfold rgb_to_brightness. rewrite E. reflexivity.
  - intros E. unfold rgb_to_brightness. rewrite E. reflexivity.
  - intros Hfd. unfold set_light_backlight, write_int.
    replace (0 <=? open_fd k) with true by lia.
    cbn [snd trace emit set_already_warned].
    rewrite <- !app_assoc. reflexivity.
Qed.

(** White written through a kernel that serves every call: the text that
    reaches the backlight node. *)
Example set_light_backlight_white :
  let white := {| color := 0xffffffff; flashMode := 0; flashOnMS := 0; flashOffMS := 0 |} in
  set_light_backlight kernel_ok white world0 =
    (0, {| g_led_states := g_led_states world0;
           already_warned := 0;
           trace := [MutexLock; SysOpen LCD_FILE;
                     SysWrite 3 (String.append "255" newline);
                     SysClose 3; MutexUnlock] |}).
Proof. reflexivity. Qed.

Section Requests.
Context `{Headers}.

(** ** What a set operation leaves in the store *)

Lemma set_light_leds_led_at k state type w :
  0 <= type < LED_TYPE_LAST ->
  length (g_led_states w) = Z.to_nat LED_TYPE_LAST ->
  led_at type (set_light_leds k state type w).2 = led_state_after state.
Proof.
  intros Hty Hlen. unfold led_at.
  assert (Z.to_nat type < length (g_led_states w))%nat
    by (rewrite Hlen; unfold LED_TYPE_LAST in *; lia).
  rewrite set_light_leds_states by done.
  by apply list_lookup_total_insert_eq.
Qed.

Lemma set_light_leds_lookup_ne k state type w (j : nat) :
  j <> Z.to_nat type ->
  g_led_states (set_light_leds k state type w).2 !! j = g_led_states w !! j.
Proof.
  intros Hj. unfold set_light_leds.
  repeat match goal with
         | |- context [if ?b then _ else _] => destruct b
         end;
    rewrite ?write_leds_priority_states;
    cbn [snd g_led_states led_assign led_memset];
    rewrite ?list_lookup_alter_ne by done;
    rewrite ?list_lookup_insert_ne by done; reflexivity.
Qed.

Lemma led_state_after_zero_color state :
  Z.land (color state) 0xffffff = 0 -> led_state_after state = led_off.
Proof. intros E. unfold led_state_after. by rewrite E. Qed.

(** C3.  A request whose colour has no bit in its low 24 leaves a zeroed
    descriptor with state [LED_LIGHT_OFF] in its slot, whatever its
    [flashMode] is (no condition is put on it), and returns what the
    device write returned. *)
Theorem zero_color_turns_off k state type w :
  0 <= type < LED_TYPE_LAST ->
  length (g_led_states w) = Z.to_nat LED_TYPE_LAST ->
  Z.land (color state) 0xffffff = 0 ->
  led_state (led_at type (set_light_leds k state type w).2) = LED_LIGHT_OFF /\
  led_color (led_at type (set_light_leds k state type w).2) = 0 /\
  time_slope_up_1 (led_at type (set_light_leds k state type w).2) = 0 /\
  time_slope_up_2 (led_at type (set_light_leds k state type w).2) = 0 /\
  time_slope_down_1 (led_at type (set_light_leds k state type w).2) = 0 /\
  time_slope_down_2 (led_at type (set_light_leds k state type w).2) = 0 /\
  time_off (led_at type (set_light_leds k state type w).2) = 0 /\
  mid_brightness (led_at type (set_light_leds k state type w).2) = 0 /\
  (set_light_leds k state type w).1 = write_leds_result k.
Proof.
  intros Hty Hlen Hc.
  rewrite set_light_leds_led_at, led_state_after_zero_color by done.
  repeat split.
  unfold set_light_leds.
  replace ((type <? 0) || (type >=? LED_TYPE_LAST)) with false by lia.
  rewrite Hc. cbn [Z.eqb negb]. apply write_leds_priority_result.
Qed.

(** C2.  [set_light_leds_attention] with [flashMode = LIGHT_FLASH_NONE]
    leaves a zeroed descriptor with state [LED_LIGHT_OFF] in the Attention
    slot, whatever colour the caller passed. *)
Theorem attention_flash_none_turns_off k state w :
  length (g_led_states w) = Z.to_nat LED_TYPE_LAST ->
  flashMode state = LIGHT_FLASH_NONE ->
  led_state (led_at LED_TYPE_ATTENTION (set_light_leds_attention k state w).2)
    = LED_LIGHT_OFF /\
  led_color (led_at LED_TYPE_ATTENTION (set_light_leds_attention k state w).2) = 0 /\
  led_at LED_TYPE_ATTENTION (set_light_leds_attention k state w).2 = led_off.
Proof.
  intros Hlen Hfl.
  assert (E : led_at LED_TYPE_ATTENTION (set_light_leds_attention k state w).2
              = led_off).
  { unfold set_light_leds_attention. rewrite Hfl, Z.eqb_refl.
    rewrite set_light_leds_led_at by done.
    by apply led_state_after_zero_color. }
  by rewrite E.
Qed.

(** C4, as amended.  A request whose [flashMode] is none of the three
    [case] labels and whose colour has a bit in its low 24 makes
    [set_light_leds] return [-EINVAL], with no device access. *)
Theorem unknown_flash_mode_einval k state type w :
  flashMode state <> LIGHT_FLASH_NONE ->
  flashMode state <> LIGHT_FLASH_TIMED ->
  flashMode state <> LIGHT_FLASH_HARDWARE ->
  Z.land (color state) 0xffffff <> 0 ->
  (set_light_leds k state type w).1 = - EINVAL /\
  trace (set_light_leds k state type w).2 = trace w.
Proof.
  intros Hn Ht Hh Hc. unfold set_light_leds.
  destruct ((type <? 0) || (type >=? LED_TYPE_LAST)); [done|].
  replace (Z.land (color state) 16777215 =? 0) with false by lia.
  replace (flashMode state =? LIGHT_FLASH_NONE) with false by lia.
  replace (flashMode state =? LIGHT_FLASH_TIMED) with false by lia.
  replace (flashMode state =? LIGHT_FLASH_HARDWARE) with false by lia.
  cbn [negb orb fst snd].
  split; [done|]. by destruct (_ =? 16777215).
Qed.

(** C10.  [set_light_leds] on a valid [type] leaves the other two slots
    as they were, whatever the request and whatever the kernel answers. *)
Theorem set_light_leds_frame k state type w other :
  0 <= type < LED_TYPE_LAST ->
  0 <= other < LED_TYPE_LAST ->
  other <> type ->
  led_at other (set_light_leds k state type w).2 = led_at other w.
Proof.
  intros Hty Hot Hne. unfold led_at.
  rewrite !list_lookup_total_alt.
  rewrite set_light_leds_lookup_ne; [done | lia].
Qed.

(** ** The slope encoding *)

Lemma led_state_after_slope state :
  flashMode state = LIGHT_FLASH_TIMED \/ flashMode state = LIGHT_FLASH_HARDWARE ->
  Z.land (color state) 0xffffff <> 0 ->
  led_state_after state =
    {| led_color := white_tweak (Z.land (color state) 0x00ffffff);
       led_state := LED_LIGHT_SLOPE;
       time_slope_up_1 := ms_field (ms_arith (SLOPE_UP_1 * flashOnMS state) ÷ 1000);
       time_slope_up_2 := ms_field (ms_arith (SLOPE_UP_2 * flashOnMS state) ÷ 1000);
       time_slope_down_1 := ms_field (ms_arith (SLOPE_DOWN_1 * flashOnMS state) ÷ 1000);
       time_slope_down_2 := ms_field (ms_arith (SLOPE_DOWN_2 * flashOnMS state) ÷ 1000);
       time_off := ms_field (flashOffMS state);
       mid_brightness := MID_BRIGHTNESS |}.
Proof.
  intros Hfl Hc. unfold led_state_after.
  replace (Z.land (color state) 16777215 =? 0) with false by lia.
  destruct flash_labels_distinct as [Hnt Hnh].
  replace (flashMode state =? LIGHT_FLASH_NONE) with false
    by (destruct Hfl as [-> | ->]; lia).
  replace ((flashMode state =? LIGHT_FLASH_TIMED)
           || (flashMode state =? LIGHT_FLASH_HARDWARE)) with true
    by (destruct Hfl as [-> | ->]; rewrite Z.eqb_refl; by rewrite ?orb_true_r).
  reflexivity.
Qed.

Lemma slope_pair_sum x :
  Z.abs (450 * x ÷ 1000 + 50 * x ÷ 1000 - x * 500 ÷ 1000) <= 1.
Proof. Z.to_euclidean_division_equations. lia. Qed.

(** C6, as amended.  A request with [flashMode] [LIGHT_FLASH_TIMED] or
    [LIGHT_FLASH_HARDWARE] and a colour with a bit in its low 24 is stored
    as a slope with [mid_brightness = 31] and equal rise and fall sums;
    when the machine types hold its durations exactly, the four segments
    are 450, 50, 50 and 450 thousandths of [flashOnMS], truncated, each
    pair is within one of [flashOnMS * 500 / 1000], and [time_off] is
    [flashOffMS]. *)
Theorem blink_segments k state type w :
  0 <= type < LED_TYPE_LAST ->
  length (g_led_states w) = Z.to_nat LED_TYPE_LAST ->
  flashMode state = LIGHT_FLASH_TIMED \/ flashMode state = LIGHT_FLASH_HARDWARE ->
  Z.land (color state) 0xffffff <> 0 ->
  let d := led_at type (set_light_leds k state type w).2 in
  led_state d = LED_LIGHT_SLOPE /\
  mid_brightness d = 31 /\
  time_slope_up_1 d + time_slope_up_2 d = time_slope_down_1 d + time_slope_down_2 d /\
  (durations_exact state ->
   time_slope_up_1 d = 450 * flashOnMS state ÷ 1000 /\
   time_slope_up_2 d = 50 * flashOnMS state ÷ 1000 /\
   time_slope_down_1 d = 50 * flashOnMS state ÷ 1000 /\
   time_slope_down_2 d = 450 * flashOnMS state ÷ 1000 /\
   Z.abs (time_slope_up_1 d + time_slope_up_2 d - flashOnMS state * 500 ÷ 1000) <= 1 /\
   Z.abs (time_slope_down_1 d + time_slope_down_2 d - flashOnMS state * 500 ÷ 1000) <= 1 /\
   time_off d = flashOffMS state).
Proof.
  intros Hty Hlen Hfl Hc d. subst d.
  rewrite set_light_leds_led_at, led_state_after_slope by done.
  cbn [led_state mid_brightness time_slope_up_1 time_slope_up_2
       time_slope_down_1 time_slope_down_2 time_off].
  unfold SLOPE_DOWN_1, SLOPE_DOWN_2.
  split; [done|]. split; [done|]. split; [lia|].
  intros (Ha1 & Ha2 & Hf1 & Hf2 & Hoff).
  rewrite Ha1, Ha2, Hf1, Hf2, Hoff.
  change SLOPE_UP_1 with 450. change SLOPE_UP_2 with 50.
  pose proof (slope_pair_sum (flashOnMS state)).
  repeat split; lia.
Qed.

(** ** The store is updated before the device is written *)

Lemma write_leds_no_device k led w :
  open_fd k < 0 ->
  led_writes (trace (write_leds k led w).2) = led_writes (trace w).
Proof.
  intros Hfd. unfold write_leds.
  replace (0 <=? open_fd k) with false by lia.
  cbn [snd trace emit]. unfold led_writes.
  rewrite !omap_app. cbn. by rewrite !app_nil_r.
Qed.

Lemma write_leds_priority_no_device k w :
  open_fd k < 0 ->
  led_writes (trace (write_leds_priority k w).2) = led_writes (trace w).
Proof.
  intros Hfd. unfold write_leds_priority.
  generalize 0. induction (Z.to_nat LED_TYPE_LAST) as [|n IH]; intros i; simpl.
  - by apply write_leds_no_device.
  - destruct (negb _); [by apply write_leds_no_device | apply IH].
Qed.

Lemma set_light_leds_known_result k state type w :
  0 <= type < LED_TYPE_LAST ->
  flash_mode_known state ->
  (set_light_leds k state type w).1 = write_leds_result k.
Proof.
  intros Hty Hfl. unfold set_light_leds.
  replace ((type <? 0) || (type >=? LED_TYPE_LAST)) with false by lia.
  destruct (negb _); [|apply write_leds_priority_result].
  destruct (flashMode state =? LIGHT_FLASH_NONE) eqn:En;
    [apply write_leds_priority_result|].
  destruct ((flashMode state =? LIGHT_FLASH_TIMED)
            || (flashMode state =? LIGHT_FLASH_HARDWARE)) eqn:Et;
    [apply write_leds_priority_result|].
  destruct Hfl as [E | [E | E]]; rewrite E, Z.eqb_refl in *;
    rewrite ?orb_true_r in *; discriminate.
Qed.

(** C7.  After [set_light_leds] on a valid [type] with a [flashMode] that
    is one of the three [case] labels, the slot holds the descriptor the
    request encodes to, which the kernel's answers have no part in: off
    for a colour without a bit in its low 24, else on or slope with the
    masked (and white-corrected) colour.  When the device node does not
    open, the call returns [-errno] and the slot is updated all the same. *)
Theorem set_light_leds_store_before_write k state type w :
  0 <= type < LED_TYPE_LAST ->
  length (g_led_states w) = Z.to_nat LED_TYPE_LAST ->
  flash_mode_known state ->
  led_at type (set_light_leds k state type w).2 = led_state_after state /\
  led_state (led_state_after state) =
    (if Z.land (color state) 0xffffff =? 0 then LED_LIGHT_OFF
     else if flashMode state =? LIGHT_FLASH_NONE then LED_LIGHT_ON
     else LED_LIGHT_SLOPE) /\
  led_color (led_state_after state) =
    (if Z.land (color state) 0xffffff =? 0 then 0
     else white_tweak (Z.land (color state) 0xffffff)) /\
  (open_fd k < 0 -> (set_light_leds k state type w).1 = - open_errno k).
Proof.
  intros Hty Hlen Hfl. split; [by apply set_light_leds_led_at|].
  split; [|split].
  - unfold led_state_after.
    destruct (Z.land (color state) 16777215 =? 0); [done|].
    destruct (flashMode state =? LIGHT_FLASH_NONE) eqn:En; [done|].
    destruct Hfl as [E | [E | E]]; rewrite E, ?Z.eqb_refl, ?orb_true_r in *;
      done.
  - unfold led_state_after.
    destruct (Z.land (color state) 16777215 =? 0); [done|].
    destruct (flashMode state =? LIGHT_FLASH_NONE) eqn:En; [done|].
    destruct Hfl as [E | [E | E]]; rewrite E, ?Z.eqb_refl, ?orb_true_r in *;
      done.
  - intros Hfd. rewrite set_light_leds_known_result by done.
    unfold write_leds_result. by replace (0 <=? open_fd k) with false by lia.
Qed.

(** ** The invariant of the store *)

(** Where the data model's invariant does hold: after a request that
    [set_light_leds] does not reject. *)
Lemma led_state_after_off_is_zeroed state :
  flash_mode_known state \/ Z.land (color state) 0xffffff = 0 ->
  off_is_zeroed (led_state_after state).
Proof.
  intros Hok. unfold off_is_zeroed, led_state_after.
  destruct led_lit_not_off as [Hon Hsl].
  destruct (Z.land (color state) 16777215 =? 0) eqn:Hc; [done|].
  destruct (flashMode state =? LIGHT_FLASH_NONE) eqn:En; [done|].
  destruct ((flashMode state =? LIGHT_FLASH_TIMED)
            || (flashMode state =? LIGHT_FLASH_HARDWARE)) eqn:Et; [done|].
  destruct Hok as [[E | [E | E]] | E]; [..|lia];
    rewrite E, ?Z.eqb_refl, ?orb_true_r in *; discriminate.
Qed.

End Requests.

(** * On the headers of the tuna build *)

(** ** Ranges the machine types hold exactly *)

Lemma tuna_durations_exact state :
  0 <= flashOnMS state <= 145635 ->
  0 <= flashOffMS state <= 65535 ->
  @durations_exact tuna state.
Proof.
  intros Hon Hoff. unfold durations_exact. cbn [ms_arith ms_field tuna].
  change SLOPE_UP_2 with 50. change SLOPE_UP_1 with 450.
  unfold wrap_int32, wrap_u16.
  repeat split.
  - rewrite Z.mod_small; lia.
  - rewrite Z.mod_small; lia.
  - apply Z.mod_small. Z.to_euclidean_division_equations. lia.
  - apply Z.mod_small. Z.to_euclidean_division_equations. lia.
  - apply Z.mod_small. lia.
Qed.

(** ** Instances *)

Lemma attention_flash_none_turns_off_witness :
  led_state (led_at LED_TYPE_ATTENTION
               (@set_light_leds_attention tuna kernel_ok red_steady world0).2)
    = @LED_LIGHT_OFF tuna.
Proof.
  exact (proj1 (@attention_flash_none_turns_off tuna kernel_ok red_steady world0
                  eq_refl eq_refl)).
Defined.

Lemma zero_color_turns_off_witness :
  led_state (led_at LED_TYPE_CHARGING
               (@set_light_leds tuna kernel_ok black_odd_mode LED_TYPE_CHARGING world0).2)
    = @LED_LIGHT_OFF tuna.
Proof.
  refine (proj1 (@zero_color_turns_off tuna kernel_ok black_odd_mode
                   LED_TYPE_CHARGING world0 _ eq_refl eq_refl)).
  unfold LED_TYPE_CHARGING, LED_TYPE_LAST. lia.
Defined.

Lemma unknown_flash_mode_einval_witness :
  (@set_light_leds tuna kernel_ok red_odd_mode LED_TYPE_NOTIFICATION world0).1
    = - EINVAL.
Proof.
  refine (proj1 (@unknown_flash_mode_einval tuna kernel_ok red_odd_mode
                   LED_TYPE_NOTIFICATION world0 _ _ _ _)); discriminate.
Defined.

(** C4, as stated, fails: a [flashMode] that is no label, with a colour
    that has no bit in its low 24, turns the slot off and returns what
    the device write returns, here 0. *)
Lemma unknown_flash_mode_zero_color_succeeds :
  flashMode black_odd_mode <> @LIGHT_FLASH_NONE tuna /\
  flashMode black_odd_mode <> @LIGHT_FLASH_TIMED tuna /\
  flashMode black_odd_mode <> @LIGHT_FLASH_HARDWARE tuna /\
  (@set_light_leds tuna kernel_ok black_odd_mode LED_TYPE_NOTIFICATION world0).1 = 0 /\
  (@set_light_leds tuna kernel_ok black_odd_mode LED_TYPE_NOTIFICATION world0).1
    <> - EINVAL.
Proof. repeat split; discriminate. Qed.

Lemma blink_segments_witness :
  time_slope_up_1 (led_at LED_TYPE_NOTIFICATION
      (@set_light_leds tuna kernel_ok green_blink LED_TYPE_NOTIFICATION world0).2)
    = 450 /\
  time_off (led_at LED_TYPE_NOTIFICATION
      (@set_light_leds tuna kernel_ok green_blink LED_TYPE_NOTIFICATION world0).2)
    = 2000.
Proof.
  assert (Hty : 0 <= LED_TYPE_NOTIFICATION < LED_TYPE_LAST)
    by (unfold LED_TYPE_NOTIFICATION, LED_TYPE_LAST; lia).
  assert (Hc : Z.land (color green_blink) 0xffffff <> 0) by discriminate.
  assert (Hex : @durations_exact tuna green_blink)
    by (repeat split; reflexivity).
  pose proof (@blink_segments tuna kernel_ok green_blink LED_TYPE_NOTIFICATION
                world0 Hty eq_refl (or_introl eq_refl) Hc) as (_ & _ & _ & Hd).
  destruct (Hd Hex) as (Hu1 & _ & _ & _ & _ & _ & Hoff).
  split; [exact Hu1 | exact Hoff].
Defined.

(** C6, as stated, fails: with [int] durations in the request and 16-bit
    durations in the descriptor, the product 450 * 10000000 does not fit
    the arithmetic and neither 4500000 nor 70000 fits the field. *)
Lemma blink_long_durations_wrap :
  flashMode green_long_blink = @LIGHT_FLASH_TIMED tuna /\
  Z.land (color green_long_blink) 0xffffff <> 0 /\
  time_slope_up_1 (led_at LED_TYPE_NOTIFICATION
      (@set_light_leds tuna kernel_ok green_long_blink LED_TYPE_NOTIFICATION world0).2)
    = 8424 /\
  450 * flashOnMS green_long_blink ÷ 1000 = 4500000 /\
  time_off (led_at LED_TYPE_NOTIFICATION
      (@set_light_leds tuna kernel_ok green_long_blink LED_TYPE_NOTIFICATION world0).2)
    = 4464 /\
  flashOffMS green_long_blink = 70000.
Proof. repeat split; discriminate. Qed.

Lemma set_light_leds_store_before_write_witness :
  led_at LED_TYPE_ATTENTION
    (@set_light_leds tuna kernel_no_device green_blink LED_TYPE_ATTENTION world0).2
    = @led_state_after tuna green_blink /\
  (@set_light_leds tuna kernel_no_device green_blink LED_TYPE_ATTENTION world0).1
    = - 2.
Proof.
  assert (Hty : 0 <= LED_TYPE_ATTENTION < LED_TYPE_LAST)
    by (unfold LED_TYPE_ATTENTION, LED_TYPE_LAST; lia).
  assert (Hfd : open_fd kernel_no_device < 0) by reflexivity.
  pose proof (@set_light_leds_store_before_write tuna kernel_no_device
                green_blink LED_TYPE_ATTENTION world0 Hty eq_refl
                (or_intror (or_introl eq_refl))) as (Hslot & _ & _ & Herr).
  split; [exact Hslot | exact (Herr Hfd)].
Defined.

Lemma set_light_leds_frame_witness :
  led_at LED_TYPE_CHARGING
    (@set_light_leds tuna kernel_ok green_blink LED_TYPE_NOTIFICATION world0).2
    = led_at LED_TYPE_CHARGING world0.
Proof.
  apply (@set_light_leds_frame tuna kernel_ok green_blink LED_TYPE_NOTIFICATION
           world0 LED_TYPE_CHARGING);
    unfold LED_TYPE_CHARGING, LED_TYPE_NOTIFICATION, LED_TYPE_LAST; lia.
Defined.

(** C5.  The invariant "an off descriptor is zeroed" holds of the zeroed
    store and is broken by a set operation that returns an error: with a
    colour that has a bit in its low 24 and a [flashMode] that is no
    label, [set_light_leds] returns [-EINVAL] after the [memset] and the
    assignment of the colour, so the slot is left with state 0, which is
    [LED_LIGHT_OFF], and colour 0xff0000. *)
Theorem unknown_flash_mode_breaks_invariant :
  (forall d, d ∈ g_led_states world0 -> @off_is_zeroed tuna d) /\
  (@set_light_leds tuna kernel_ok red_odd_mode LED_TYPE_NOTIFICATION world0).1
    = - EINVAL /\
  led_state (led_at LED_TYPE_NOTIFICATION
      (@set_light_leds tuna kernel_ok red_odd_mode LED_TYPE_NOTIFICATION world0).2)
    = @LED_LIGHT_OFF tuna /\
  led_color (led_at LED_TYPE_NOTIFICATION
      (@set_light_leds tuna kernel_ok red_odd_mode LED_TYPE_NOTIFICATION world0).2)
    = 0xff0000 /\
  ~ @off_is_zeroed tuna (led_at LED_TYPE_NOTIFICATION
      (@set_light_leds tuna kernel_ok red_odd_mode LED_TYPE_NOTIFICATION world0).2).
Proof.
  split; [|repeat split].
  - intros d Hd. apply elem_of_replicate in Hd as [-> _]. by intros _.
  - intros Hinv. destruct (Hinv eq_refl) as [Hcol _]. discriminate Hcol.
Qed.

(** ** A run *)

(** Attention blinks green, a steady red notification arrives, attention
    is cancelled: the driver is handed the green slope twice, then the
    red steady light. *)
Example attention_then_notification_then_cancel :
  let w1 := (@set_light_leds_attention tuna kernel_ok green_blink world0).2 in
  let w2 := (@set_light_leds_notifications tuna kernel_ok red_steady w1).2 in
  let w3 := (@set_light_leds_attention tuna kernel_ok red_steady w2).2 in
  led_writes (trace w3) =
    [ @led_state_after tuna green_blink;
      @led_state_after tuna green_blink;
      @led_state_after tuna red_steady ] /\
  @led_state_after tuna green_blink =
    {| led_color := 0x00ff00; led_state := 3;
       time_slope_up_1 := 450; time_slope_up_2 := 50;
       time_slope_down_1 := 50; time_slope_down_2 := 450;
       time_off := 2000; mid_brightness := 31 |} /\
  @led_state_after tuna red_steady =
    {| led_color := 0xff0000; led_state := 1;
       time_slope_up_1 := 0; time_slope_up_2 := 0;
       time_slope_down_1 := 0; time_slope_down_2 := 0;
       time_off := 0; mid_brightness := 0 |}.
Proof. repeat split. Qed.

(** * Further properties of the code *)

(** ** [write_leds] *)

(** X1.  When the device node does not open, [write_leds] returns
    [-errno], issues no [ioctl] and no [close], logs the failure, releases
    the mutex and leaves the store as it was. *)
Theorem write_leds_open_failure k led w :
  open_fd k < 0 ->
  (write_leds k led w).1 = - open_errno k /\
  trace (write_leds k led w).2 =
    trace w ++ [MutexLock; SysOpen LED_FILE;
                LogE "failed to open /dev/an30259a_leds!"; MutexUnlock] /\
  g_led_states (write_leds k led w).2 = g_led_states w.
Proof.
  intros Hfd. unfold write_leds.
  replace (0 <=? open_fd k) with false by lia.
  cbn [fst snd trace emit g_led_states].
  rewrite <- !app_assoc. done.
Qed.

Lemma write_leds_open_failure_witness :
  (write_leds kernel_no_device led_zero world0).1 = - 2.
Proof.
  refine (proj1 (write_leds_open_failure kernel_no_device led_zero world0 _)).
  reflexivity.
Defined.

(** An event that differs from every event of a list is not in it. *)
Lemma not_elem_of_events (e : event) (l : list event) :
  Forall (fun e' => e <> e') l -> e ∉ l.
Proof.
  intros Hall Hin. rewrite Forall_forall in Hall. by apply (Hall e Hin).
Qed.

Ltac event_not_in :=
  apply not_elem_of_events; repeat constructor; discriminate.

(** X2.  Whatever the kernel answers, [write_leds] is one critical
    section: the events it appends are a lock, events that are neither a
    lock nor an unlock, and an unlock; the descriptor it has opened is
    closed inside, and nothing is closed when the open failed. *)
Theorem write_leds_critical_section k led w :
  exists mid,
    trace (write_leds k led w).2 =
      trace w ++ [MutexLock] ++ mid ++ [MutexUnlock] /\
    (MutexLock ∉ mid) /\ (MutexUnlock ∉ mid) /\
    (0 <= open_fd k -> last mid = Some (SysClose (open_fd k))) /\
    (open_fd k < 0 -> forall fd, ¬ (SysClose fd ∈ mid)).
Proof.
  exists (if 0 <=? open_fd k then
            [SysOpen LED_FILE; SysIoctlSetImax (open_fd k) IMAX]
            ++ (if imax_ret k =? 0 then [] else [LogE "failed to set imax"])
            ++ [SysIoctlSetLed (open_fd k) led]
            ++ (if led_ret k <? 0 then [LogE "failed to set leds!"] else [])
            ++ [SysClose (open_fd k)]
          else [SysOpen LED_FILE; LogE "failed to open /dev/an30259a_leds!"]).
  unfold write_leds.
  destruct (0 <=? open_fd k) eqn:Hfd.
  - destruct (imax_ret k =? 0), (led_ret k <? 0);
      cbn [snd trace emit app]; rewrite <- !app_assoc;
      (split; [reflexivity|]);
      (split; [event_not_in|]);
      (split; [event_not_in|]);
      (split; [reflexivity | lia]).
  - cbn [snd trace emit app]. rewrite <- !app_assoc.
    split; [reflexivity|].
    split; [event_not_in|].
    split; [event_not_in|].
    split; [lia | intros _ fd; event_not_in].
Qed.

(** ** [write_int] and the backlight *)



Lemma grey_bytes a v :
  0 <= v <= 255 ->
  (a * 2 ^ 24 + v * 65793) mod 2 ^ 24 = v * 65793 /\
  v * 65793 / 2 ^ 16 mod 256 = v /\
  v * 65793 / 2 ^ 8 mod 256 = v /\
  v * 65793 mod 256 = v.
Proof.
  intros Hv. change (2 ^ 24) with 16777216. change (2 ^ 16) with 65536.
  change (2 ^ 8) with 256.
  repeat split.
  - rewrite Z.add_comm, Z.mod_add by done. apply Z.mod_small. lia.
  - replace (v * 65793) with (v * 65536 + v * 257) by lia.
    rewrite Z.add_comm, Z.div_add by done.
    rewrite (Z.div_small (v * 257)) by lia. apply Z.mod_small. lia.
  - replace (v * 65793) with (v * 257 * 256 + v) by lia.
    rewrite Z.add_comm, Z.div_add by done.
    rewrite (Z.div_small v), Z.add_0_l by lia.
    replace (v * 257) with (v + v * 256) by lia.
    rewrite Z.mod_add by done. apply Z.mod_small. lia.
  - replace (v * 65793) with (v + v * 257 * 256) by lia.
    rewrite Z.mod_add by done. apply Z.mod_small. lia.
Qed.

(** X4.  For a grey colour (the three bytes equal to [v], any bits above
    them) the brightness is [v] itself, and with the node open
    [set_light_backlight] writes the decimal text of [v]. *)
Theorem set_light_backlight_grey k state w a v :
  0 <= v <= 255 ->
  color state = a * 2 ^ 24 + v * 0x010101 ->
  rgb_to_brightness state = v /\
  (0 <= open_fd k ->
   trace (set_light_backlight k state w).2 =
     trace w ++ [MutexLock; SysOpen LCD_FILE;
                 SysWrite (open_fd k) (sprintf_d_nl v);
                 SysClose (open_fd k); MutexUnlock]).
Proof.
  intros Hv Hc.
  assert (E : rgb_to_brightness state = v).
  { rewrite rgb_to_brightness_arith, Hc.
    destruct (grey_bytes a v Hv) as (-> & -> & -> & ->).
    replace (77 * v + 150 * v + 29 * v) with (v * 256) by lia.
    by apply Z.div_mul. }
  split; [exact E|].
  intros Hfd. unfold set_light_backlight, write_int. rewrite E.
  replace (0 <=? open_fd k) with true by lia.
  cbn [snd trace emit set_already_warned].
  rewrite <- !app_assoc. reflexivity.
Qed.

Lemma set_light_backlight_grey_witness :
  rgb_to_brightness grey_128 = 128.
Proof.
  refine (proj1 (set_light_backlight_grey kernel_ok grey_128 world0 255 128 _ _));
    [lia | reflexivity].
Defined.


(** ** [set_light_leds] *)

Section SetLeds.
Context `{Headers}.

Lemma write_leds_priority_attention_lit k w :
  led_state (led_at LED_TYPE_ATTENTION w) <> LED_LIGHT_OFF ->
  write_leds_priority k w = write_leds k (led_at LED_TYPE_ATTENTION w) w.
Proof.
  intros Hlit. unfold write_leds_priority.
  change (Z.to_nat LED_TYPE_LAST) with 3%nat. cbn [write_leds_priority_loop].
  change (led_at 0 w) with (led_at LED_TYPE_ATTENTION w).
  by replace (led_state (led_at LED_TYPE_ATTENTION w) =? LED_LIGHT_OFF)
    with false by lia.
Qed.

Lemma write_leds_priority_none_lit k w :
  led_state (led_at LED_TYPE_ATTENTION w) = LED_LIGHT_OFF ->
  led_state (led_at LED_TYPE_NOTIFICATION w) = LED_LIGHT_OFF ->
  write_leds_priority k w = write_leds k (led_at LED_TYPE_CHARGING w) w.
Proof.
  intros Ha Hn. unfold write_leds_priority.
  change (Z.to_nat LED_TYPE_LAST) with 3%nat. cbn [write_leds_priority_loop].
  change (0 + 1) with 1. change (1 + 1) with 2.
  change (LED_TYPE_LAST - 1) with 2.
  change (led_at 0 w) with (led_at LED_TYPE_ATTENTION w).
  change (led_at 1 w) with (led_at LED_TYPE_NOTIFICATION w).
  change (led_at 2 w) with (led_at LED_TYPE_CHARGING w).
  rewrite Ha, Hn, Z.eqb_refl. cbn [negb].
  by destruct (negb _).
Qed.

(** An accepted request on a valid [type] ends in the priority scan over
    the updated store. *)
Lemma set_light_leds_accepted_run k state type w :
  0 <= type < LED_TYPE_LAST ->
  accepted state ->
  exists w',
    set_light_leds k state type w = write_leds_priority k w' /\
    trace w' = trace w /\
    g_led_states w' = g_led_states (set_light_leds k state type w).2.
Proof.
  intros Hty Hacc. unfold set_light_leds.
  replace ((type <? 0) || (type >=? LED_TYPE_LAST)) with false by lia.
  destruct (Z.land (color state) 16777215 =? 0) eqn:Hc; cbn [negb].
  { eexists. split; [reflexivity|]. rewrite write_leds_priority_states.
    split; [|reflexivity]. reflexivity. }
  destruct (flashMode state =? LIGHT_FLASH_NONE) eqn:En.
  { eexists. split; [reflexivity|]. rewrite write_leds_priority_states.
    split; [|reflexivity]. by destruct (_ =? 16777215). }
  destruct ((flashMode state =? LIGHT_FLASH_TIMED)
            || (flashMode state =? LIGHT_FLASH_HARDWARE)) eqn:Et.
  { eexists. split; [reflexivity|]. rewrite write_leds_priority_states.
    split; [|reflexivity]. by destruct (_ =? 16777215). }
  destruct Hacc as [E | [E | [E | E]]]; [lia|..];
    rewrite E, ?Z.eqb_refl, ?orb_true_r in *; discriminate.
Qed.

Lemma set_light_leds_length k state type w :
  length (g_led_states (set_light_leds k state type w).2)
  = length (g_led_states w).
Proof.
  unfold set_light_leds.
  repeat match goal with
         | |- context [if ?b then _ else _] => destruct b
         end;
    rewrite ?write_leds_priority_states;
    cbn [snd g_led_states led_assign led_memset];
    rewrite ?length_alter, ?length_insert; reflexivity.
Qed.

Lemma led_at_set_light_leds_ne k state type w other :
  0 <= type -> 0 <= other -> other <> type ->
  led_at other (set_light_leds k state type w).2 = led_at other w.
Proof.
  intros Hty Hot Hne. unfold led_at. rewrite !list_lookup_total_alt.
  rewrite set_light_leds_lookup_ne; [done | lia].
Qed.

(** X6.  [set_light_leds] with a [type] outside 0..2 returns [-EINVAL]
    and changes nothing; with a valid [type] and a request it accepts (a
    colour without a bit in its low 24, or a [flashMode] that is a label)
    it returns what the device write gives: the answer of the descriptor
    [ioctl] when the node opens, [-errno] when it does not. *)
Theorem set_light_leds_result k state type w :
  (type < 0 \/ LED_TYPE_LAST <= type ->
   set_light_leds k state type w = (- EINVAL, w)) /\
  (0 <= type < LED_TYPE_LAST -> accepted state ->
   (set_light_leds k state type w).1 =
     (if 0 <=? open_fd k then led_ret k else - open_errno k)).
Proof.
  split.
  - intros Hty. unfold set_light_leds.
    by replace ((type <? 0) || (type >=? LED_TYPE_LAST)) with true by lia.
  - intros Hty Hacc.
    destruct (set_light_leds_accepted_run k state type w Hty Hacc)
      as (w' & -> & _ & _).
    apply write_leds_priority_result.
Qed.

(** X7.  The colour stored for a request with a bit in its low 24 is the
    masked colour, except that white is stored as 0x80ff80: the stored
    colour fits 24 bits, is never 0 and never 0xffffff, and differs from
    the masked colour only for white. *)
Theorem stored_colour k state type w :
  0 <= type < LED_TYPE_LAST ->
  length (g_led_states w) = Z.to_nat LED_TYPE_LAST ->
  Z.land (color state) 0xffffff <> 0 ->
  let c := led_color (led_at type (set_light_leds k state type w).2) in
  (Z.land (color state) 0xffffff = 0xffffff -> c = 0x80ff80) /\
  (Z.land (color state) 0xffffff <> 0xffffff -> c = Z.land (color state) 0xffffff) /\
  0 < c < 0xffffff.
Proof.
  intros Hty Hlen Hc c. subst c.
  rewrite set_light_leds_led_at by done. unfold led_state_after.
  replace (Z.land (color state) 16777215 =? 0) with false by lia.
  assert (Hr : 0 <= Z.land (color state) 16777215 < 2 ^ 24).
  { change 16777215 with (2 ^ 24 - 1). rewrite land_low_bits by done.
    by apply Z.mod_pos_bound. }
  assert (Hcol : forall d1 d2 d3,
    led_color (if flashMode state =? LIGHT_FLASH_NONE then d1
               else if (flashMode state =? LIGHT_FLASH_TIMED)
                       || (flashMode state =? LIGHT_FLASH_HARDWARE)
                    then d2 else d3)
    = (if flashMode state =? LIGHT_FLASH_NONE then led_color d1
       else if (flashMode state =? LIGHT_FLASH_TIMED)
               || (flashMode state =? LIGHT_FLASH_HARDWARE)
            then led_color d2 else led_color d3)).
  { intros. by repeat case_match. }
  cbv zeta. rewrite Hcol. cbn [led_color set_led_color led_zero].
  assert (Hsame : forall x : Z, (if flashMode state =? LIGHT_FLASH_NONE then x
      else if (flashMode state =? LIGHT_FLASH_TIMED)
              || (flashMode state =? LIGHT_FLASH_HARDWARE) then x else x) = x)
    by (intros; by repeat case_match).
  rewrite Hsame. unfold white_tweak.
  change (2 ^ 24) with 16777216 in Hr.
  destruct (Z.land (color state) 16777215 =? 16777215) eqn:Hw; lia.
Qed.

(** X8.  A steady request ([LIGHT_FLASH_NONE], a colour with a bit in its
    low 24) is stored as on with every duration and [mid_brightness]
    zero, whatever the slot held before: no timing of an earlier blink
    survives. *)
Theorem steady_request_clears_timing k state type w :
  0 <= type < LED_TYPE_LAST ->
  length (g_led_states w) = Z.to_nat LED_TYPE_LAST ->
  flashMode state = LIGHT_FLASH_NONE ->
  Z.land (color state) 0xffffff <> 0 ->
  led_at type (set_light_leds k state type w).2 =
    {| led_color := white_tweak (Z.land (color state) 0xffffff);
       led_state := LED_LIGHT_ON;
       time_slope_up_1 := 0; time_slope_up_2 := 0;
       time_slope_down_1 := 0; time_slope_down_2 := 0;
       time_off := 0; mid_brightness := 0 |}.
Proof.
  intros Hty Hlen Hfl Hc.
  rewrite set_light_leds_led_at by done. unfold led_state_after.
  replace (Z.land (color state) 16777215 =? 0) with false by lia.
  by rewrite Hfl, Z.eqb_refl.
Qed.

(** X9.  Last write wins: after two set operations on the same valid
    [type] the store is what the second alone would have left, whatever
    the first request was and whatever the kernel answered. *)
Theorem set_light_leds_last_wins k1 k2 a b type w :
  0 <= type < LED_TYPE_LAST ->
  length (g_led_states w) = Z.to_nat LED_TYPE_LAST ->
  g_led_states (set_light_leds k2 b type (set_light_leds k1 a type w).2).2
  = g_led_states (set_light_leds k2 b type w).2.
Proof.
  intros Hty Hlen.
  assert (Z.to_nat type < length (g_led_states w))%nat
    by (rewrite Hlen; unfold LED_TYPE_LAST in *; lia).
  rewrite (set_light_leds_states k2 b type (set_light_leds k1 a type w).2)
    by (rewrite ?set_light_leds_length; done).
  rewrite !set_light_leds_states by done.
  apply list_insert_insert_eq.
Qed.

(** X10.  Set operations on two different valid channels commute on the
    store. *)
Theorem set_light_leds_commute k1 k2 k3 k4 a b ta tb w :
  0 <= ta < LED_TYPE_LAST ->
  0 <= tb < LED_TYPE_LAST ->
  ta <> tb ->
  length (g_led_states w) = Z.to_nat LED_TYPE_LAST ->
  g_led_states (set_light_leds k2 b tb (set_light_leds k1 a ta w).2).2
  = g_led_states (set_light_leds k4 a ta (set_light_leds k3 b tb w).2).2.
Proof.
  intros Ha Hb Hne Hlen.
  assert (Z.to_nat ta < length (g_led_states w))%nat
    by (rewrite Hlen; unfold LED_TYPE_LAST in *; lia).
  assert (Z.to_nat tb < length (g_led_states w))%nat
    by (rewrite Hlen; unfold LED_TYPE_LAST in *; lia).
  rewrite (set_light_leds_states k2 b tb (set_light_leds k1 a ta w).2)
    by (rewrite ?set_light_leds_length; done).
  rewrite (set_light_leds_states k4 a ta (set_light_leds k3 b tb w).2)
    by (rewrite ?set_light_leds_length; done).
  rewrite !set_light_leds_states by done.
  apply list_insert_insert_ne. lia.
Qed.

(** X11.  The invariant "an off descriptor is zeroed" is kept by every
    set operation on a valid [type] whose request is accepted. *)
Theorem accepted_request_keeps_invariant k state type w :
  0 <= type < LED_TYPE_LAST ->
  length (g_led_states w) = Z.to_nat LED_TYPE_LAST ->
  accepted state ->
  Forall off_is_zeroed (g_led_states w) ->
  Forall off_is_zeroed (g_led_states (set_light_leds k state type w).2).
Proof.
  intros Hty Hlen Hacc Hinv.
  assert (Z.to_nat type < length (g_led_states w))%nat
    by (rewrite Hlen; unfold LED_TYPE_LAST in *; lia).
  rewrite set_light_leds_states by done.
  apply Forall_insert; [done|].
  apply led_state_after_off_is_zeroed. destruct Hacc; auto.
Qed.

End SetLeds.

(** ** Priority across set operations *)

Section Priority.
Context `{Headers}.

(** X12.  While the Attention slot is lit, an accepted set operation on
    another channel hands the driver the Attention descriptor, not the
    new request. *)
Theorem lit_attention_preempts k state type w :
  0 <= open_fd k ->
  0 <= type < LED_TYPE_LAST ->
  type <> LED_TYPE_ATTENTION ->
  accepted state ->
  led_state (led_at LED_TYPE_ATTENTION w) <> LED_LIGHT_OFF ->
  led_writes (trace (set_light_leds k state type w).2) =
    led_writes (trace w) ++ [led_at LED_TYPE_ATTENTION w].
Proof.
  intros Hfd Hty Hne Hacc Hlit.
  destruct (set_light_leds_accepted_run k state type w Hty Hacc)
    as (w' & Hrun & Htr & Hst).
  assert (Hat : led_at LED_TYPE_ATTENTION w' = led_at LED_TYPE_ATTENTION w).
  { transitivity (led_at LED_TYPE_ATTENTION (set_light_leds k state type w).2).
    - unfold led_at. by rewrite Hst.
    - apply led_at_set_light_leds_ne; unfold LED_TYPE_ATTENTION in *; lia. }
  rewrite Hrun, write_leds_priority_attention_lit by (by rewrite Hat).
  rewrite write_leds_led_writes by done. by rewrite Htr, Hat.
Qed.

(** X13.  A blinking Attention request with a colour that has a bit in
    its low 24 always reaches the driver: when the node opens, the
    descriptor handed over is the one just stored for it. *)
Theorem attention_blink_is_written k state w :
  0 <= open_fd k ->
  length (g_led_states w) = Z.to_nat LED_TYPE_LAST ->
  flashMode state = LIGHT_FLASH_TIMED \/ flashMode state = LIGHT_FLASH_HARDWARE ->
  Z.land (color state) 0xffffff <> 0 ->
  led_writes (trace (set_light_leds_attention k state w).2) =
    led_writes (trace w)
    ++ [led_at LED_TYPE_ATTENTION (set_light_leds_attention k state w).2] /\
  led_state (led_at LED_TYPE_ATTENTION (set_light_leds_attention k state w).2)
    = LED_LIGHT_SLOPE.
Proof.
  intros Hfd Hlen Hfl Hc. unfold set_light_leds_attention.
  destruct flash_labels_distinct as [Hnt Hnh].
  destruct led_lit_not_off as [_ Hsl].
  replace (flashMode state =? LIGHT_FLASH_NONE) with false
    by (destruct Hfl as [-> | ->]; lia).
  assert (Hty : 0 <= LED_TYPE_ATTENTION < LED_TYPE_LAST) by done.
  assert (Hacc : accepted state) by (right; right; done).
  assert (Hslot : led_state (led_at LED_TYPE_ATTENTION
            (set_light_leds k state LED_TYPE_ATTENTION w).2) = LED_LIGHT_SLOPE).
  { rewrite set_light_leds_led_at, led_state_after_slope by done. done. }
  split; [|exact Hslot].
  destruct (set_light_leds_accepted_run k state _ w Hty Hacc)
    as (w' & Hrun & Htr & Hst).
  assert (Hat : led_at LED_TYPE_ATTENTION w'
                = led_at LED_TYPE_ATTENTION
                    (set_light_leds k state LED_TYPE_ATTENTION w).2)
    by (unfold led_at; by rewrite Hst).
  rewrite <- Hat in Hslot |- *.
  rewrite Hrun, write_leds_priority_attention_lit by (rewrite Hslot; done).
  rewrite write_leds_led_writes by done. by rewrite Htr.
Qed.

(** X14.  Attention is never steady: after [set_light_leds_attention]
    with a [flashMode] that is a label, the Attention slot is off or a
    slope. *)
Theorem attention_is_never_steady k state w :
  length (g_led_states w) = Z.to_nat LED_TYPE_LAST ->
  flash_mode_known state ->
  led_state (led_at LED_TYPE_ATTENTION (set_light_leds_attention k state w).2)
    = LED_LIGHT_OFF \/
  led_state (led_at LED_TYPE_ATTENTION (set_light_leds_attention k state w).2)
    = LED_LIGHT_SLOPE.
Proof.
  intros Hlen Hfl. unfold set_light_leds_attention.
  assert (Hty : 0 <= LED_TYPE_ATTENTION < LED_TYPE_LAST) by done.
  destruct (flashMode state =? LIGHT_FLASH_NONE) eqn:En.
  - left. rewrite set_light_leds_led_at by done.
    by rewrite led_state_after_zero_color.
  - rewrite set_light_leds_led_at by done.
    destruct (Z.land (color state) 16777215 =? 0) eqn:Hc.
    + left. rewrite led_state_after_zero_color by lia. done.
    + right. rewrite led_state_after_slope; [done | | lia].
      destruct Hfl as [E | Hfl]; [lia | done].
Qed.

(** X15.  Turning off the last lit channel tells the driver: when the
    other two slots are off and the request has no bit in the low 24 of
    its colour, the one descriptor handed over is the Charging slot's and
    its state is [LED_LIGHT_OFF]. *)
Theorem last_channel_off_is_written k state type w :
  0 <= open_fd k ->
  0 <= type < LED_TYPE_LAST ->
  length (g_led_states w) = Z.to_nat LED_TYPE_LAST ->
  Z.land (color state) 0xffffff = 0 ->
  (forall other, 0 <= other < LED_TYPE_LAST -> other <> type ->
     led_state (led_at other w) = LED_LIGHT_OFF) ->
  led_writes (trace (set_light_leds k state type w).2) =
    led_writes (trace w)
    ++ [led_at LED_TYPE_CHARGING (set_light_leds k state type w).2] /\
  led_state (led_at LED_TYPE_CHARGING (set_light_leds k state type w).2)
    = LED_LIGHT_OFF.
Proof.
  intros Hfd Hty Hlen Hc Hoff.
  assert (Hall : forall i, 0 <= i < LED_TYPE_LAST ->
            led_state (led_at i (set_light_leds k state type w).2)
            = LED_LIGHT_OFF).
  { intros i Hi. destruct (decide (i = type)) as [-> | Hne].
    - rewrite set_light_leds_led_at, led_state_after_zero_color by done. done.
    - rewrite led_at_set_light_leds_ne by lia. by apply Hoff. }
  split; [|by apply Hall].
  destruct (set_light_leds_accepted_run k state type w Hty (or_introl Hc))
    as (w' & Hrun & Htr & Hst).
  assert (Hat : forall i, led_at i w'
                = led_at i (set_light_leds k state type w).2)
    by (intros i; unfold led_at; by rewrite Hst).
  rewrite <- Hat.
  rewrite Hrun, write_leds_priority_none_lit by (rewrite Hat; by apply Hall).
  rewrite write_leds_led_writes by done. by rewrite Htr.
Qed.

Lemma slope_total x :
  0 <= x ->
  x - 3 <= 450 * x ÷ 1000 + 50 * x ÷ 1000 + 50 * x ÷ 1000 + 450 * x ÷ 1000 <= x.
Proof. intros Hx. Z.to_euclidean_division_equations. lia. Qed.

(** X16.  The slope fits its on-time: for a blinking request with
    [flashOnMS >= 0] whose durations the machine types hold exactly, the
    four stored segments add up to at most [flashOnMS] and to no less
    than [flashOnMS - 3]. *)
Theorem slope_fits_on_time k state type w :
  0 <= type < LED_TYPE_LAST ->
  length (g_led_states w) = Z.to_nat LED_TYPE_LAST ->
  flashMode state = LIGHT_FLASH_TIMED \/ flashMode state = LIGHT_FLASH_HARDWARE ->
  Z.land (color state) 0xffffff <> 0 ->
  durations_exact state ->
  0 <= flashOnMS state ->
  let d := led_at type (set_light_leds k state type w).2 in
  flashOnMS state - 3
    <= time_slope_up_1 d + time_slope_up_2 d
       + time_slope_down_1 d + time_slope_down_2 d
    <= flashOnMS state.
Proof.
  intros Hty Hlen Hfl Hc (Ha1 & Ha2 & Hf1 & Hf2 & _) Hon d. subst d.
  rewrite set_light_leds_led_at, led_state_after_slope by done.
  cbn [time_slope_up_1 time_slope_up_2 time_slope_down_1 time_slope_down_2].
  unfold SLOPE_DOWN_1, SLOPE_DOWN_2.
  rewrite Ha1, Ha2, Hf1, Hf2.
  change SLOPE_UP_1 with 450. change SLOPE_UP_2 with 50.
  by apply slope_total.
Qed.

End Priority.

(** ** [open_lights] *)

Lemma strcmp_is_0_ne a b : a <> b -> strcmp_is_0 a b = false.
Proof. intros Hne. unfold strcmp_is_0. by apply String.eqb_neq. Qed.

(** X17.  [open_lights] with a name that is none of the four identifiers
    returns [-EINVAL], stores no device and does not run the one-time
    initialisation. *)
Theorem open_lights_unknown_name module name p :
  name <> LIGHT_ID_BACKLIGHT ->
  name <> LIGHT_ID_NOTIFICATIONS ->
  name <> LIGHT_ID_ATTENTION ->
  name <> LIGHT_ID_BATTERY ->
  open_lights module name p = (- EINVAL, None, p).
Proof.
  intros Hb Hn Ha Hy. unfold open_lights.
  by rewrite !strcmp_is_0_ne by done.
Qed.

(** X18.  The store is zeroed once: the first [open_lights] that
    succeeds leaves [g_led_states] as three zeroed descriptors, and from
    then on an [open_lights], of whatever name, leaves the world exactly
    as the set operations made it. *)
Theorem open_lights_initialises_once module1 module2 name1 name2 p w :
  (open_lights module1 name1 p).1.1 = 0 ->
  g_init (open_lights module1 name1 p).2 = true /\
  (g_init p = false ->
   g_led_states (proc (open_lights module1 name1 p).2)
   = replicate 3 led_zero) /\
  (open_lights module2 name2
     {| g_init := g_init (open_lights module1 name1 p).2; proc := w |}).2
  = {| g_init := true; proc := w |}.
Proof.
  intros Hok. unfold open_lights in Hok |- *.
  destruct (if strcmp_is_0 LIGHT_ID_BACKLIGHT name1 then _ else _) as [f|];
    [|discriminate Hok].
  cbn [fst snd]. unfold pthread_once_init_g_lock.
  assert (Hinit : g_init (if g_init p then p
            else {| g_init := true; proc := init_g_lock (proc p) |}) = true)
    by (destruct (g_init p) eqn:E; done).
  split; [exact Hinit|]. split.
  - intros ->. reflexivity.
  - rewrite Hinit.
    by destruct (if strcmp_is_0 LIGHT_ID_BACKLIGHT name2 then _ else _).
Qed.

Section OpenDispatch.
Context `{Headers}.

(** X19.  The device [open_lights] returns calls the setter its name
    asks for: [dev->set_light] is [set_light_backlight] for
    [backlight], and for [notifications], [attention] and [battery] the
    LED setter of the Notification, Attention and Charging channel. *)
Theorem open_lights_dispatch module name p dev p' :
  open_lights module name p = (0, Some dev, p') ->
  (name = LIGHT_ID_BACKLIGHT /\
   forall k state w, call_set_light dev k state w = set_light_backlight k state w) \/
  (name = LIGHT_ID_NOTIFICATIONS /\
   forall k state w, call_set_light dev k state w =
     set_light_leds k state LED_TYPE_NOTIFICATION w) \/
  (name = LIGHT_ID_ATTENTION /\
   forall k state w, call_set_light dev k state w =
     set_light_leds_attention k state w) \/
  (name = LIGHT_ID_BATTERY /\
   forall k state w, call_set_light dev k state w =
     set_light_leds k state LED_TYPE_CHARGING w).
Proof.
  unfold open_lights, strcmp_is_0.
  destruct (String.eqb_spec LIGHT_ID_BACKLIGHT name) as [<- | _].
  { intros [= <- _]. left. done. }
  destruct (String.eqb_spec LIGHT_ID_NOTIFICATIONS name) as [<- | _].
  { intros [= <- _]. right; left. done. }
  destruct (String.eqb_spec LIGHT_ID_ATTENTION name) as [<- | _].
  { intros [= <- _]. right; right; left. done. }
  destruct (String.eqb_spec LIGHT_ID_BATTERY name) as [<- | _].
  { intros [= <- _]. right; right; right. done. }
  discriminate.
Qed.

End OpenDispatch.

(** ** Instances of the further properties *)

Lemma stored_colour_witness :
  led_color (led_at LED_TYPE_NOTIFICATION
      (@set_light_leds tuna kernel_ok white_blink LED_TYPE_NOTIFICATION world0).2)
    = 0x80ff80.
Proof.
  refine (proj1 (@stored_colour tuna kernel_ok white_blink
                   LED_TYPE_NOTIFICATION world0 _ eq_refl _) eq_refl);
    [unfold LED_TYPE_NOTIFICATION, LED_TYPE_LAST; lia | discriminate].
Defined.

Lemma steady_request_clears_timing_witness :
  time_off (led_at LED_TYPE_NOTIFICATION
      (@set_light_leds tuna kernel_ok red_steady LED_TYPE_NOTIFICATION
         (@set_light_leds tuna kernel_ok green_blink LED_TYPE_NOTIFICATION world0).2).2)
    = 0.
Proof.
  rewrite (@steady_request_clears_timing tuna kernel_ok red_steady
             LED_TYPE_NOTIFICATION
             (@set_light_leds tuna kernel_ok green_blink LED_TYPE_NOTIFICATION
                world0).2);
    [reflexivity | unfold LED_TYPE_NOTIFICATION, LED_TYPE_LAST; lia
     | reflexivity | reflexivity | discriminate].
Defined.

Lemma set_light_leds_last_wins_witness :
  g_led_states (@set_light_leds tuna kernel_no_device red_steady LED_TYPE_CHARGING
      (@set_light_leds tuna kernel_ok green_blink LED_TYPE_CHARGING world0).2).2
  = g_led_states
      (@set_light_leds tuna kernel_no_device red_steady LED_TYPE_CHARGING world0).2.
Proof.
  apply (@set_light_leds_last_wins tuna kernel_ok kernel_no_device green_blink
           red_steady LED_TYPE_CHARGING world0);
    [unfold LED_TYPE_CHARGING, LED_TYPE_LAST; lia | reflexivity].
Defined.

Lemma set_light_leds_commute_witness :
  g_led_states (@set_light_leds tuna kernel_ok red_steady LED_TYPE_NOTIFICATION
      (@set_light_leds tuna kernel_ok green_blink LED_TYPE_ATTENTION world0).2).2
  = g_led_states (@set_light_leds tuna kernel_ok green_blink LED_TYPE_ATTENTION
      (@set_light_leds tuna kernel_ok red_steady LED_TYPE_NOTIFICATION world0).2).2.
Proof.
  apply (@set_light_leds_commute tuna kernel_ok kernel_ok kernel_ok kernel_ok
           green_blink red_steady LED_TYPE_ATTENTION LED_TYPE_NOTIFICATION world0);
    [unfold LED_TYPE_ATTENTION, LED_TYPE_LAST; lia
    | unfold LED_TYPE_NOTIFICATION, LED_TYPE_LAST; lia
    | discriminate | reflexivity].
Defined.

Lemma accepted_request_keeps_invariant_witness :
  Forall (@off_is_zeroed tuna)
    (g_led_states
       (@set_light_leds tuna kernel_ok green_blink LED_TYPE_NOTIFICATION world0).2).
Proof.
  apply (@accepted_request_keeps_invariant tuna kernel_ok green_blink
           LED_TYPE_NOTIFICATION world0).
  - unfold LED_TYPE_NOTIFICATION, LED_TYPE_LAST; lia.
  - reflexivity.
  - right; right; left; reflexivity.
  - repeat constructor.
Defined.

Lemma lit_attention_preempts_witness :
  led_writes (trace
    (@set_light_leds tuna kernel_ok red_steady LED_TYPE_NOTIFICATION
       (@set_light_leds_attention tuna kernel_ok green_blink world0).2).2)
  = led_writes (trace (@set_light_leds_attention tuna kernel_ok green_blink world0).2)
    ++ [led_at LED_TYPE_ATTENTION
          (@set_light_leds_attention tuna kernel_ok green_blink world0).2].
Proof.
  apply (@lit_attention_preempts tuna kernel_ok red_steady LED_TYPE_NOTIFICATION
           (@set_light_leds_attention tuna kernel_ok green_blink world0).2).
  - vm_compute; discriminate.
  - unfold LED_TYPE_NOTIFICATION, LED_TYPE_LAST; lia.
  - discriminate.
  - right; left; reflexivity.
  - vm_compute; discriminate.
Defined.

Lemma attention_blink_is_written_witness :
  led_state (led_at LED_TYPE_ATTENTION
      (@set_light_leds_attention tuna kernel_ok green_blink world0).2)
    = @LED_LIGHT_SLOPE tuna.
Proof.
  refine (proj2 (@attention_blink_is_written tuna kernel_ok green_blink world0
                   _ eq_refl (or_introl eq_refl) _));
    [vm_compute; discriminate | discriminate].
Defined.

Lemma attention_is_never_steady_witness :
  led_state (led_at LED_TYPE_ATTENTION
      (@set_light_leds_attention tuna kernel_ok red_steady world0).2)
    = @LED_LIGHT_OFF tuna \/
  led_state (led_at LED_TYPE_ATTENTION
      (@set_light_leds_attention tuna kernel_ok red_steady world0).2)
    = @LED_LIGHT_SLOPE tuna.
Proof.
  apply (@attention_is_never_steady tuna kernel_ok red_steady world0);
    [reflexivity | left; reflexivity].
Defined.

Lemma last_channel_off_is_written_witness :
  led_state (led_at LED_TYPE_CHARGING
      (@set_light_leds tuna kernel_ok black_odd_mode LED_TYPE_CHARGING world0).2)
    = @LED_LIGHT_OFF tuna.
Proof.
  refine (proj2 (@last_channel_off_is_written tuna kernel_ok black_odd_mode
                   LED_TYPE_CHARGING world0 _ _ eq_refl eq_refl _)).
  - vm_compute; discriminate.
  - unfold LED_TYPE_CHARGING, LED_TYPE_LAST; lia.
  - intros other Hr Hne.
    assert (Hcases : other = 0 \/ other = 1)
      by (unfold LED_TYPE_CHARGING, LED_TYPE_LAST in *; lia).
    destruct Hcases as [-> | ->]; reflexivity.
Defined.

Lemma slope_fits_on_time_witness :
  1000 - 3
  <= time_slope_up_1 (led_at LED_TYPE_NOTIFICATION
       (@set_light_leds tuna kernel_ok green_blink LED_TYPE_NOTIFICATION world0).2)
     + time_slope_up_2 (led_at LED_TYPE_NOTIFICATION
       (@set_light_leds tuna kernel_ok green_blink LED_TYPE_NOTIFICATION world0).2)
     + time_slope_down_1 (led_at LED_TYPE_NOTIFICATION
       (@set_light_leds tuna kernel_ok green_blink LED_TYPE_NOTIFICATION world0).2)
     + time_slope_down_2 (led_at LED_TYPE_NOTIFICATION
       (@set_light_leds tuna kernel_ok green_blink LED_TYPE_NOTIFICATION world0).2)
  <= 1000.
Proof.
  apply (@slope_fits_on_time tuna kernel_ok green_blink LED_TYPE_NOTIFICATION world0).
  - unfold LED_TYPE_NOTIFICATION, LED_TYPE_LAST; lia.
  - reflexivity.
  - left; reflexivity.
  - discriminate.
  - repeat split; reflexivity.
  - vm_compute; discriminate.
Defined.

Lemma open_lights_unknown_name_witness :
  open_lights 0 "buttons" process0 = (- EINVAL, None, process0).
Proof.
  apply (open_lights_unknown_name 0 "buttons" process0); discriminate.
Defined.

Lemma open_lights_initialises_once_witness :
  g_init (open_lights 0 LIGHT_ID_ATTENTION process0).2 = true.
Proof.
  refine (proj1 (open_lights_initialises_once 0 0 LIGHT_ID_ATTENTION
                   LIGHT_ID_BATTERY process0 world0 _)).
  reflexivity.
Defined.

Lemma open_lights_dispatch_witness :
  (LIGHT_ID_ATTENTION = LIGHT_ID_BACKLIGHT /\
   forall k state w,
     @call_set_light tuna
       {| common_version := 0; common_module := 0;
          set_light := fn_set_light_leds_attention |} k state w
     = set_light_backlight k state w) \/
  (LIGHT_ID_ATTENTION = LIGHT_ID_NOTIFICATIONS /\
   forall k state w,
     @call_set_light tuna
       {| common_version := 0; common_module := 0;
          set_light := fn_set_light_leds_attention |} k state w
     = @set_light_leds tuna k state LED_TYPE_NOTIFICATION w) \/
  (LIGHT_ID_ATTENTION = LIGHT_ID_ATTENTION /\
   forall k state w,
     @call_set_light tuna
       {| common_version := 0; common_module := 0;
          set_light := fn_set_light_leds_attention |} k state w
     = @set_light_leds_attention tuna k state w) \/
  (LIGHT_ID_ATTENTION = LIGHT_ID_BATTERY /\
   forall k state w,
     @call_set_light tuna
       {| common_version := 0; common_module := 0;
          set_light := fn_set_light_leds_attention |} k state w
     = @set_light_leds tuna k state LED_TYPE_CHARGING w).
Proof.
  apply (@open_lights_dispatch tuna 0 LIGHT_ID_ATTENTION process0 _
           (pthread_once_init_g_lock process0)).
  reflexivity.
Defined.
